(** * updatOR: CVSS metric extraction and aggregation

    A shallow embedding of [src/cvss_metrics.py] and
    [src/cvss_metric_plot.py]: the vector-string parsers, the field
    decoder, the severity resolver and the per-file aggregation loop of
    [process_json_files]; of the weakness extractor of [src/cwe_stats.py];
    and of the file listings of [src/json_counts.py] and
    [src/check_json.py]; followed by the properties of the specification
    and of the code that concern them.

    Python values decoded by [json.load] are modelled by the type [json];
    the operations the scripts apply to them ([.get], [in], subscripting,
    truth value, iteration, [>=], hashing) are modelled with the dynamic
    type errors Python raises.  Strings are byte strings (UTF-8), which is
    exact for splitting and for comparison with ASCII literals. *)

From Stdlib Require Import List String Ascii Bool Arith ZArith QArith Lia.
Import ListNotations.
Close Scope Q_scope.
Open Scope string_scope.
Set Warnings "-register-all".

(** ** Exceptions and results *)

Inductive exn : Type :=
  | AttributeError
  | TypeError
  | ValueError
  | KeyError
  | LoadError.      (* open() or json.load() failed *)

Inductive result (A : Type) : Type :=
  | Ok (a : A)
  | Raise (e : exn).
Arguments Ok {A} a.
Arguments Raise {A} e.

Definition rbind {A B} (r : result A) (k : A -> result B) : result B :=
  match r with
  | Ok a => k a
  | Raise e => Raise e
  end.

Declare Scope result_scope.
Delimit Scope result_scope with res.
Notation "x <- r ;; k" := (rbind r (fun x => k))
  (at level 61, r at next level, right associativity) : result_scope.

(** ** Python values *)

Module Py.

(** A Python [float], by its exact value.  No arithmetic is performed on
    floats by the scripts, only comparisons, which are exact. *)
Inductive pyfloat : Type :=
  | FNaN
  | FPosInf
  | FNegInf
  | FFin (q : Q).

(** A value produced by [json.load].  [JObj] lists the items of the [dict]
    in insertion order. *)
Inductive json : Type :=
  | JNull
  | JBool (b : bool)
  | JInt (z : Z)
  | JFloat (f : pyfloat)
  | JStr (s : string)
  | JArr (l : list json)
  | JObj (items : list (string * json)).

Definition dict := list (string * json).

Fixpoint lookup {V} (k : string) (d : list (string * V)) : option V :=
  match d with
  | [] => None
  | (k', v) :: r => if String.eqb k k' then Some v else lookup k r
  end.

(** [d[k] = v] on a dict: overwrite in place, or append. *)
Fixpoint dict_set {V} (k : string) (v : V) (d : list (string * V))
  : list (string * V) :=
  match d with
  | [] => [(k, v)]
  | (k', v') :: r =>
      if String.eqb k k' then (k', v) :: r else (k', v') :: dict_set k v r
  end.

Definition keys {V} (d : list (string * V)) : list string := map fst d.

(** [key in d] for a dict [d]. *)
Definition has_key {V} (k : string) (d : list (string * V)) : bool :=
  match lookup k d with Some _ => true | None => false end.

(** [x.get(k, default)]: only a dict has the method. *)
Definition get (x : json) (k : string) (default : json) : result json :=
  match x with
  | JObj d => Ok (match lookup k d with Some v => v | None => default end)
  | _ => Raise AttributeError
  end.

(** Truth value of [if x:]. *)
Definition truthy (x : json) : bool :=
  match x with
  | JNull => false
  | JBool b => b
  | JInt z => negb (Z.eqb z 0)
  | JFloat (FFin q) => negb (Qeq_bool q 0%Q)
  | JFloat _ => true
  | JStr s => negb (String.eqb s "")
  | JArr l => match l with [] => false | _ => true end
  | JObj d => match d with [] => false | _ => true end
  end.

(** [sub in s] for two strings. *)
Fixpoint is_substring (sub s : string) : bool :=
  String.prefix sub s
  || match s with
     | EmptyString => false
     | String _ r => is_substring sub r
     end.

Definition str_eq (k : string) (x : json) : bool :=
  match x with
  | JStr s => String.eqb k s
  | _ => false
  end.

(** [k in x] for a string literal [k]. *)
Definition contains (k : string) (x : json) : result bool :=
  match x with
  | JObj d => Ok (has_key k d)
  | JArr l => Ok (existsb (str_eq k) l)
  | JStr s => Ok (is_substring k s)
  | _ => Raise TypeError
  end.

(** [x[k]] for a string literal [k]. *)
Definition getitem (x : json) (k : string) : result json :=
  match x with
  | JObj d => match lookup k d with Some v => Ok v | None => Raise KeyError end
  | _ => Raise TypeError
  end.

Fixpoint chars (s : string) : list json :=
  match s with
  | EmptyString => []
  | String c r => JStr (String c EmptyString) :: chars r
  end.

(** The elements [for e in x:] runs over. *)
Definition iter (x : json) : result (list json) :=
  match x with
  | JArr l => Ok l
  | JStr s => Ok (chars s)
  | JObj d => Ok (map JStr (keys d))
  | _ => Raise TypeError
  end.

(** [x >= c] for a float literal [c] of exact value [c]. *)
Definition ge (x : json) (c : Q) : result bool :=
  match x with
  | JInt z => Ok (Qle_bool c (inject_Z z))
  | JBool b => Ok (Qle_bool c (if b then 1%Q else 0%Q))
  | JFloat (FFin q) => Ok (Qle_bool c q)
  | JFloat FPosInf => Ok true
  | JFloat _ => Ok false
  | _ => Raise TypeError
  end.

(** Keys of a [Counter]: hashable values up to Python equality, under
    which [True == 1 == 1.0]. *)
Inductive key : Type :=
  | KNone
  | KNum (f : pyfloat)
  | KStr (s : string).

Definition hash (x : json) : result key :=
  match x with
  | JNull => Ok KNone
  | JBool b => Ok (KNum (FFin (if b then 1%Q else 0%Q)))
  | JInt z => Ok (KNum (FFin (inject_Z z)))
  | JFloat f => Ok (KNum f)
  | JStr s => Ok (KStr s)
  | JArr _ | JObj _ => Raise TypeError
  end.

Definition float_eqb (f g : pyfloat) : bool :=
  match f, g with
  | FNaN, FNaN => true      (* json.load yields one shared NaN object *)
  | FPosInf, FPosInf => true
  | FNegInf, FNegInf => true
  | FFin p, FFin q => Qeq_bool p q
  | _, _ => false
  end.

Definition key_eqb (a b : key) : bool :=
  match a, b with
  | KNone, KNone => true
  | KNum f, KNum g => float_eqb f g
  | KStr s, KStr t => String.eqb s t
  | _, _ => false
  end.

(** [collections.Counter]: items in insertion order. *)
Definition Counter := list (key * nat).

Fixpoint count (c : Counter) (k : key) : nat :=
  match c with
  | [] => 0
  | (k', n) :: r => if key_eqb k k' then n else count r k
  end.

(** [c[k] += 1]. *)
Fixpoint incr (c : Counter) (k : key) : Counter :=
  match c with
  | [] => [(k, 1)]
  | (k', n) :: r =>
      if key_eqb k k' then (k', S n) :: r else (k', n) :: incr r k
  end.

(** [s.split(sep)] for a one-character separator. *)
Fixpoint split (sep : ascii) (s : string) : list string :=
  match s with
  | EmptyString => [EmptyString]
  | String c r =>
      if Ascii.eqb c sep then EmptyString :: split sep r
      else match split sep r with
           | h :: t => String c h :: t
           | [] => [String c EmptyString]
           end
  end.

(** [c in s] for a one-character string [c]. *)
Fixpoint has_char (c : ascii) (s : string) : bool :=
  match s with
  | EmptyString => false
  | String c' r => Ascii.eqb c' c || has_char c r
  end.

(** [s.upper()], on ASCII letters. *)
Definition upper_char (c : ascii) : ascii :=
  let n := nat_of_ascii c in
  if ((97 <=? n) && (n <=? 122))%nat then ascii_of_nat (n - 32) else c.

Fixpoint upper (s : string) : string :=
  match s with
  | EmptyString => EmptyString
  | String c r => String (upper_char c) (upper r)
  end.

End Py.
Import Py.

(** ** Vector Grammar Parser

    [parse_vector_string] and [parse_vector_string_v2] are the same in
    [cvss_metrics.py] and [cvss_metric_plot.py], as are [extract_metrics],
    [extract_severity_from_cvss] and [calculate_severity_from_score]. *)

Open Scope result_scope.

(** [for x in l: s = body(s, x)], stopping at the first exception. *)
Fixpoint for_each {A S} (body : S -> A -> result S) (l : list A) (s : S)
  : result S :=
  match l with
  | [] => Ok s
  | x :: r => s' <- body s x ;; for_each body r s'
  end.

(** [key, value = parts]. *)
Definition unpack2 (parts : list string) : result (string * string) :=
  match parts with
  | [k; v] => Ok (k, v)
  | _ => Raise ValueError
  end.

Definition v3_initial : dict :=
  [ ("Confidentiality", JStr "N/A");
    ("Integrity", JStr "N/A");
    ("Availability", JStr "N/A");
    ("Attack Vector", JStr "N/A");
    ("Attack Complexity", JStr "N/A");
    ("Privileges Required", JStr "N/A");
    ("User Interaction", JStr "N/A");
    ("Scope", JStr "N/A");
    ("baseSeverity", JStr "N/A") ].

Definition v2_initial : dict :=
  [ ("Confidentiality", JStr "N/A");
    ("Integrity", JStr "N/A");
    ("Availability", JStr "N/A");
    ("Attack Vector", JStr "N/A");
    ("Attack Complexity", JStr "N/A");
    ("Authentication", JStr "N/A");
    ("baseSeverity", JStr "N/A") ].

(** Body of the loop over [vector_parts] in [parse_vector_string]. *)
Definition v3_part (metrics : dict) (part : string) : result dict :=
  if has_char ":" part then
    kv <- unpack2 (split ":" part) ;;
    let (key, value) := kv in
    if key =? "C" then Ok (dict_set "Confidentiality" (JStr value) metrics)
    else if key =? "I" then Ok (dict_set "Integrity" (JStr value) metrics)
    else if key =? "A" then Ok (dict_set "Availability" (JStr value) metrics)
    else if key =? "AV" then Ok (dict_set "Attack Vector" (JStr value) metrics)
    else if key =? "AC" then
      Ok (dict_set "Attack Complexity" (JStr value) metrics)
    else if key =? "PR" then
      Ok (dict_set "Privileges Required" (JStr value) metrics)
    else if key =? "UI" then
      Ok (dict_set "User Interaction" (JStr value) metrics)
    else if key =? "S" then Ok (dict_set "Scope" (JStr value) metrics)
    else Ok metrics
  else Ok metrics.

(** Body of the loop over [vector_parts] in [parse_vector_string_v2]. *)
Definition v2_part (metrics : dict) (part : string) : result dict :=
  if has_char ":" part then
    kv <- unpack2 (split ":" part) ;;
    let (key, value) := kv in
    if key =? "C" then Ok (dict_set "Confidentiality" (JStr value) metrics)
    else if key =? "I" then Ok (dict_set "Integrity" (JStr value) metrics)
    else if key =? "A" then Ok (dict_set "Availability" (JStr value) metrics)
    else if key =? "AV" then Ok (dict_set "Attack Vector" (JStr value) metrics)
    else if key =? "AC" then
      Ok (dict_set "Attack Complexity" (JStr value) metrics)
    else if key =? "Au" then
      Ok (dict_set "Authentication" (JStr value) metrics)
    else Ok metrics
  else Ok metrics.

(** [vector_string.split('/')]: only a [str] has the method. *)
Definition split_vector (vector_string : json) : result (list string) :=
  match vector_string with
  | JStr s => Ok (split "/" s)
  | _ => Raise AttributeError
  end.

Definition parse_vector_string (vector_string : json) : result dict :=
  let metrics := v3_initial in
  if negb (truthy vector_string) then Ok metrics
  else
    vector_parts <- split_vector vector_string ;;
    for_each v3_part vector_parts metrics.

Definition parse_vector_string_v2 (vector_string : json) : result dict :=
  let metrics := v2_initial in
  if negb (truthy vector_string) then Ok metrics
  else
    vector_parts <- split_vector vector_string ;;
    for_each v2_part vector_parts metrics.

(** ** Field Decoder *)

Definition NA : json := JStr "N/A".

(** The direct fields of a v3.0 or v3.1 block. *)
Definition v3_fields (cvss : json) : result dict :=
  c <- get cvss "confidentialityImpact" NA ;;
  i <- get cvss "integrityImpact" NA ;;
  a <- get cvss "availabilityImpact" NA ;;
  av <- get cvss "attackVector" NA ;;
  ac <- get cvss "attackComplexity" NA ;;
  pr <- get cvss "privilegesRequired" NA ;;
  ui <- get cvss "userInteraction" NA ;;
  sc <- get cvss "scope" NA ;;
  bs <- get cvss "baseSeverity" NA ;;
  Ok [ ("Confidentiality", c); ("Integrity", i); ("Availability", a);
       ("Attack Vector", av); ("Attack Complexity", ac);
       ("Privileges Required", pr); ("User Interaction", ui);
       ("Scope", sc); ("baseSeverity", bs) ].

(** The direct fields of a v2.0 block. *)
Definition v2_fields (cvss : json) : result dict :=
  c <- get cvss "confidentialityImpact" NA ;;
  i <- get cvss "integrityImpact" NA ;;
  a <- get cvss "availabilityImpact" NA ;;
  av <- get cvss "accessVector" NA ;;
  ac <- get cvss "accessComplexity" NA ;;
  au <- get cvss "authentication" NA ;;
  Ok [ ("Confidentiality", c); ("Integrity", i); ("Availability", a);
       ("Attack Vector", av); ("Attack Complexity", ac);
       ("Authentication", au); ("baseSeverity", NA) ].

Definition extract_metrics (cvss_data : json) : result dict :=
  is31 <- contains "cvssV3_1" cvss_data ;;
  if is31 then
    cvss <- getitem cvss_data "cvssV3_1" ;;
    vector_string <- get cvss "vectorString" (JStr "") ;;
    if truthy vector_string then parse_vector_string vector_string
    else v3_fields cvss
  else
    is30 <- contains "cvssV3_0" cvss_data ;;
    if is30 then
      cvss <- getitem cvss_data "cvssV3_0" ;;
      vector_string <- get cvss "vectorString" (JStr "") ;;
      if truthy vector_string then parse_vector_string vector_string
      else v3_fields cvss
    else
      is20 <- contains "cvssV2_0" cvss_data ;;
      if is20 then
        cvss <- getitem cvss_data "cvssV2_0" ;;
        vector_string <- get cvss "vectorString" (JStr "") ;;
        if truthy vector_string then parse_vector_string_v2 vector_string
        else v2_fields cvss
      else Ok [].

(** ** Severity Resolver *)

(** The float literal [0.1], exactly. *)
Definition lit_0_1 : Q := (3602879701896397 # 36028797018963968)%Q.

Definition calculate_severity_from_score (base_score : json)
  (cvss_version : string) : result string :=
  if cvss_version =? "v3" then
    c <- ge base_score 9%Q ;;
    if c then Ok "Critical"
    else
      h <- ge base_score 7%Q ;;
      if h then Ok "High"
      else
        m <- ge base_score 4%Q ;;
        if m then Ok "Medium"
        else
          l <- ge base_score lit_0_1 ;;
          if l then Ok "Low" else Ok "N/A"
  else
    h <- ge base_score 7%Q ;;
    if h then Ok "High"
    else
      m <- ge base_score 4%Q ;;
      if m then Ok "Medium"
      else
        l <- ge base_score lit_0_1 ;;
        if l then Ok "Low" else Ok "N/A".

Definition is_none (x : json) : bool :=
  match x with JNull => true | _ => false end.

(** The [cvssV3_1] and [cvssV3_0] branches of [extract_severity_from_cvss],
    after [cvss] is bound. *)
Definition severity_v3 (cvss : json) : result string :=
  let severity := "N/A" in
  base_severity <- get cvss "baseSeverity" JNull ;;
  if truthy base_severity then
    if str_eq "CRITICAL" base_severity then Ok "Critical"
    else if str_eq "HIGH" base_severity then Ok "High"
    else if str_eq "MEDIUM" base_severity then Ok "Medium"
    else if str_eq "LOW" base_severity then Ok "Low"
    else Ok severity
  else
    base_score <- get cvss "baseScore" JNull ;;
    if negb (is_none base_score) then
      calculate_severity_from_score base_score "v3"
    else Ok severity.

Definition extract_severity_from_cvss (cvss_data : json) : result string :=
  let severity := "N/A" in
  is31 <- contains "cvssV3_1" cvss_data ;;
  if is31 then
    cvss <- getitem cvss_data "cvssV3_1" ;;
    severity_v3 cvss
  else
    is30 <- contains "cvssV3_0" cvss_data ;;
    if is30 then
      cvss <- getitem cvss_data "cvssV3_0" ;;
      severity_v3 cvss
    else
      is20 <- contains "cvssV2_0" cvss_data ;;
      if is20 then
        cvss <- getitem cvss_data "cvssV2_0" ;;
        base_score <- get cvss "baseScore" JNull ;;
        if negb (is_none base_score) then
          calculate_severity_from_score base_score "v2"
        else Ok severity
      else Ok severity.

Close Scope result_scope.

(** ** Impact normalization ([cvss_metric_plot.py] only) *)

Section Normalize.

(** The text [str(value)] gives for a value that is not a [str]; the
    properties below hold whatever it is. *)
Variable py_repr : json -> string.

Definition py_str (value : json) : string :=
  match value with
  | JStr s => s
  | _ => py_repr value
  end.

Definition in_list (v : string) (l : list string) : bool :=
  existsb (String.eqb v) l.

Definition normalize_impact (value : json) : json :=
  if is_none value then JStr "N/A"
  else
    let v := upper (py_str value) in
    if in_list v ["H"; "HIGH"] then JStr "HIGH"
    else if in_list v ["L"; "LOW"] then JStr "LOW"
    else if in_list v ["N"; "NONE"] then JStr "NONE"
    else if in_list v ["M"; "MEDIUM"] then JStr "MEDIUM"
    else JStr "N/A".

End Normalize.

(** ** Aggregator: the state of [process_json_files] *)

Record env : Type := mkEnv {
  frequency_counter : list (string * Counter);
  frequency_counter_v2 : list (string * Counter);
  total_files : nat;
  files_with_metrics : nat;
  files_processed : nat;
  cvss_v2_files : nat;
  cvss_v3_files : nat;
  (* locals of the loop body *)
  has_metrics : bool;
  cvss_version : option string;
  (* the "Error processing file" lines printed so far *)
  errors : list exn
}.

Definition set_frequency_counter (x : list (string * Counter)) (e : env) :=
  mkEnv x (frequency_counter_v2 e) (total_files e) (files_with_metrics e)
    (files_processed e) (cvss_v2_files e) (cvss_v3_files e) (has_metrics e)
    (cvss_version e) (errors e).

Definition set_frequency_counter_v2 (x : list (string * Counter)) (e : env) :=
  mkEnv (frequency_counter e) x (total_files e) (files_with_metrics e)
    (files_processed e) (cvss_v2_files e) (cvss_v3_files e) (has_metrics e)
    (cvss_version e) (errors e).

Definition set_total_files (x : nat) (e : env) :=
  mkEnv (frequency_counter e) (frequency_counter_v2 e) x
    (files_with_metrics e) (files_processed e) (cvss_v2_files e)
    (cvss_v3_files e) (has_metrics e) (cvss_version e) (errors e).

Definition set_files_with_metrics (x : nat) (e : env) :=
  mkEnv (frequency_counter e) (frequency_counter_v2 e) (total_files e) x
    (files_processed e) (cvss_v2_files e) (cvss_v3_files e) (has_metrics e)
    (cvss_version e) (errors e).

Definition set_files_processed (x : nat) (e : env) :=
  mkEnv (frequency_counter e) (frequency_counter_v2 e) (total_files e)
    (files_with_metrics e) x (cvss_v2_files e) (cvss_v3_files e)
    (has_metrics e) (cvss_version e) (errors e).

Definition set_cvss_v2_files (x : nat) (e : env) :=
  mkEnv (frequency_counter e) (frequency_counter_v2 e) (total_files e)
    (files_with_metrics e) (files_processed e) x (cvss_v3_files e)
    (has_metrics e) (cvss_version e) (errors e).

Definition set_cvss_v3_files (x : nat) (e : env) :=
  mkEnv (frequency_counter e) (frequency_counter_v2 e) (total_files e)
    (files_with_metrics e) (files_processed e) (cvss_v2_files e) x
    (has_metrics e) (cvss_version e) (errors e).

Definition set_has_metrics (x : bool) (e : env) :=
  mkEnv (frequency_counter e) (frequency_counter_v2 e) (total_files e)
    (files_with_metrics e) (files_processed e) (cvss_v2_files e)
    (cvss_v3_files e) x (cvss_version e) (errors e).

Definition set_cvss_version (x : option string) (e : env) :=
  mkEnv (frequency_counter e) (frequency_counter_v2 e) (total_files e)
    (files_with_metrics e) (files_processed e) (cvss_v2_files e)
    (cvss_v3_files e) (has_metrics e) x (errors e).

Definition set_errors (x : list exn) (e : env) :=
  mkEnv (frequency_counter e) (frequency_counter_v2 e) (total_files e)
    (files_with_metrics e) (files_processed e) (cvss_v2_files e)
    (cvss_v3_files e) (has_metrics e) (cvss_version e) x.

(** Statements that may raise and that mutate the counters: the state
    reached when an exception is raised is kept, as the mutations made
    before it are. *)
Definition M (A : Type) : Type := env -> result A * env.

Definition ret {A} (a : A) : M A := fun e => (Ok a, e).

Definition bind {A B} (m : M A) (k : A -> M B) : M B :=
  fun e =>
    match m e with
    | (Ok a, e') => k a e'
    | (Raise x, e') => (Raise x, e')
    end.

Definition lift {A} (r : result A) : M A := fun e => (r, e).

Definition modify (f : env -> env) : M unit := fun e => (Ok tt, f e).

Definition gets {A} (f : env -> A) : M A := fun e => (Ok (f e), e).

Declare Scope stmt_scope.
Delimit Scope stmt_scope with stmt.
Notation "x <- m ;; k" := (bind m (fun x => k))
  (at level 61, m at next level, right associativity) : stmt_scope.
Notation "m ;; k" := (bind m (fun _ => k))
  (at level 61, right associativity) : stmt_scope.

Open Scope stmt_scope.

(** [for x in l: body(x)]. *)
Fixpoint for_ {A} (l : list A) (body : A -> M unit) : M unit :=
  match l with
  | [] => ret tt
  | x :: r => body x ;; for_ r body
  end.

(** [frequency_counter[name][value] += 1]. *)
Definition count_in (name : string) (value : json) : M unit :=
  fc <- gets frequency_counter ;;
  match lookup name fc with
  | None => lift (Raise KeyError)
  | Some c =>
      k <- lift (hash value) ;;
      modify (set_frequency_counter (dict_set name (incr c k) fc))
  end.

(** [frequency_counter_v2[name][value] += 1]. *)
Definition count_in_v2 (name : string) (value : json) : M unit :=
  fc <- gets frequency_counter_v2 ;;
  match lookup name fc with
  | None => lift (Raise KeyError)
  | Some c =>
      k <- lift (hash value) ;;
      modify (set_frequency_counter_v2 (dict_set name (incr c k) fc))
  end.

Definition initial : env :=
  {| frequency_counter :=
       [ ("Confidentiality", []); ("Integrity", []); ("Availability", []);
         ("Attack Vector", []); ("Attack Complexity", []);
         ("Privileges Required", []); ("User Interaction", []);
         ("Scope", []); ("baseSeverity", []); ("SeverityLevel", []) ];
     frequency_counter_v2 := [ ("Authentication", []) ];
     total_files := 0;
     files_with_metrics := 0;
     files_processed := 0;
     cvss_v2_files := 0;
     cvss_v3_files := 0;
     has_metrics := false;
     cvss_version := None;
     errors := [] |}.

(** What [open] and [json.load] give for one file. *)
Inductive file : Type :=
  | Unreadable
  | Loaded (data : json).

Definition load (f : file) : result json :=
  match f with
  | Unreadable => Raise LoadError
  | Loaded data => Ok data
  end.

(** Line 264:
    [data.get('containers', {}).get('cna', {}).get('metrics', [])]. *)
Definition cna_metrics_of (data : json) : result json :=
  (containers <- get data "containers" (JObj []) ;;
   cna <- get containers "cna" (JObj []) ;;
   get cna "metrics" (JArr []))%res.

(** Line 293: [data.get('containers', {}).get('adp', [])]. *)
Definition adp_list_of (data : json) : result json :=
  (containers <- get data "containers" (JObj []) ;;
   get containers "adp" (JArr []))%res.

Section Aggregator.

(** The statement [value = normalize_impact(value)] applied to the
    Confidentiality, Integrity and Availability entries before they are
    counted: present in [cvss_metric_plot.py], absent from
    [cvss_metrics.py]. *)
Variable normalize : option (json -> json).

Definition cia_value (key : string) (value : json) : json :=
  match normalize with
  | Some f =>
      if in_list key ["Confidentiality"; "Integrity"; "Availability"]
      then f value else value
  | None => value
  end.

(** Body of [for cvss_data in cna_metrics] and, verbatim, of
    [for cvss_data in adp_metrics]. *)
Definition process_block (cvss_data : json) : M unit :=
  metrics <- lift (extract_metrics cvss_data) ;;
  match metrics with
  | [] => ret tt
  | _ =>
      severity_level <- lift (extract_severity_from_cvss cvss_data) ;;
      (if negb (severity_level =? "N/A")
       then count_in "SeverityLevel" (JStr severity_level)
       else ret tt) ;;
      is20 <- lift (contains "cvssV2_0" cvss_data) ;;
      (if is20 then
         modify (set_cvss_version (Some "v2.0")) ;;
         n <- gets cvss_v2_files ;;
         modify (set_cvss_v2_files (n + 1)) ;;
         match lookup "Authentication" metrics with
         | Some au => count_in_v2 "Authentication" au
         | None => ret tt
         end
       else
         is30 <- lift (contains "cvssV3_0" cvss_data) ;;
         is3x <- (if is30 then ret true
                  else lift (contains "cvssV3_1" cvss_data)) ;;
         if is3x then
           modify (set_cvss_version (Some "v3.x")) ;;
           n <- gets cvss_v3_files ;;
           modify (set_cvss_v3_files (n + 1))
         else ret tt) ;;
      for_ metrics (fun item =>
        let (key, value) := item in
        let value := cia_value key value in
        fc <- gets frequency_counter ;;
        if has_key key fc then count_in key value else ret tt)
  end.

(** [has_metrics = True] followed by the loop over the blocks of a
    non-empty metrics list: lines 266-289 and, verbatim, 297-320. *)
Definition count_blocks (metrics_list : json) : M unit :=
  modify (set_has_metrics true) ;;
  blocks <- lift (iter metrics_list) ;;
  for_ blocks process_block.

(** Lines 263-289: metrics of the cna container. *)
Definition cna_tier (data : json) : M unit :=
  cna_metrics <- lift (cna_metrics_of data) ;;
  if truthy cna_metrics then count_blocks cna_metrics else ret tt.

(** Body of [for adp in adp_list]. *)
Definition adp_section (adp : json) : M unit :=
  adp_metrics <- lift (get adp "metrics" (JArr [])) ;;
  if truthy adp_metrics then count_blocks adp_metrics else ret tt.

(** Lines 291-320: metrics of the adp containers. *)
Definition adp_tier (data : json) : M unit :=
  found <- gets has_metrics ;;
  if negb found then
    adp_list <- lift (adp_list_of data) ;;
    adps <- lift (iter adp_list) ;;
    for_ adps adp_section
  else ret tt.

Definition is_dict (x : json) : bool :=
  match x with JObj _ => true | _ => false end.

(** Lines 322-370: the legacy [impact] object. *)
Definition legacy_tier (data : json) : M unit :=
  found <- gets has_metrics ;;
  if negb found then
    impact_data <- lift (get data "impact" (JObj [])) ;;
    if is_dict impact_data then
      base_metric_v3 <- lift (get impact_data "baseMetricV3" (JObj [])) ;;
      cvss_v3 <- lift (get base_metric_v3 "cvssV3" (JObj [])) ;;
      if truthy cvss_v3 then
        modify (set_has_metrics true) ;;
        modify (set_cvss_version (Some "v3.x")) ;;
        n <- gets cvss_v3_files ;;
        modify (set_cvss_v3_files (n + 1)) ;;
        base_score <- lift (get cvss_v3 "baseScore" JNull) ;;
        if negb (is_none base_score) then
          severity <- lift (calculate_severity_from_score base_score "v3") ;;
          count_in "SeverityLevel" (JStr severity) ;;
          if severity =? "Critical" then
            count_in "baseSeverity" (JStr "CRITICAL")
          else if severity =? "High" then
            count_in "baseSeverity" (JStr "HIGH")
          else if severity =? "Medium" then
            count_in "baseSeverity" (JStr "MEDIUM")
          else if severity =? "Low" then
            count_in "baseSeverity" (JStr "LOW")
          else ret tt
        else ret tt
      else
        base_metric_v2 <- lift (get impact_data "baseMetricV2" (JObj [])) ;;
        cvss_v2 <- lift (get base_metric_v2 "cvssV2" (JObj [])) ;;
        if truthy cvss_v2 then
          modify (set_has_metrics true) ;;
          modify (set_cvss_version (Some "v2.0")) ;;
          n <- gets cvss_v2_files ;;
          modify (set_cvss_v2_files (n + 1)) ;;
          base_score <- lift (get cvss_v2 "baseScore" JNull) ;;
          if negb (is_none base_score) then
            severity <- lift (calculate_severity_from_score base_score "v2") ;;
            count_in "SeverityLevel" (JStr severity) ;;
            if severity =? "High" then
              count_in "baseSeverity" (JStr "HIGH")
            else if severity =? "Medium" then
              count_in "baseSeverity" (JStr "MEDIUM")
            else if severity =? "Low" then
              count_in "baseSeverity" (JStr "LOW")
            else ret tt
          else ret tt
        else ret tt
    else ret tt
  else ret tt.

(** Lines 372-375: the file is counted. *)
Definition count_file : M unit :=
  found <- gets has_metrics ;;
  (if found then
     n <- gets files_with_metrics ;;
     modify (set_files_with_metrics (n + 1))
   else ret tt) ;;
  n <- gets files_processed ;;
  modify (set_files_processed (n + 1)).

(** The body of the [try] block for one file. *)
Definition try_body (f : file) : M unit :=
  data <- lift (load f) ;;
  modify (set_has_metrics false) ;;
  modify (set_cvss_version None) ;;
  cna_tier data ;;
  adp_tier data ;;
  legacy_tier data ;;
  count_file.

(** One iteration of [for file_path in json_file_paths]. *)
Definition process_file (e : env) (f : file) : env :=
  let e := set_total_files (total_files e + 1) e in
  match try_body f e with
  | (Ok _, e') => e'
  | (Raise x, e') => set_errors (errors e' ++ [x]) e'
  end.

(** The merge of the v2 counter after the loop. *)
Definition merge_v2 (e : env) : env :=
  match lookup "Authentication" (frequency_counter_v2 e) with
  | Some ((_ :: _) as au) =>
      set_frequency_counter
        (dict_set "Authentication" au (frequency_counter e)) e
  | _ => e
  end.

(** [process_json_files], on the files [find_json_files] lists; the tuple
    it returns is read off the final state. *)
Definition process_json_files (files : list file) : env :=
  merge_v2 (fold_left process_file files initial).

End Aggregator.

Close Scope stmt_scope.

Module cvss_metrics.
Definition process_file := process_file None.
Definition process_json_files := process_json_files None.
End cvss_metrics.

Module cvss_metric_plot.
Definition process_file (py_repr : json -> string) :=
  process_file (Some (normalize_impact py_repr)).
Definition process_json_files (py_repr : json -> string) :=
  process_json_files (Some (normalize_impact py_repr)).
End cvss_metric_plot.

(** ** File listing ([find_json_files], [json_counts.py], [check_json.py]) *)

(** [s.endswith(suffix)]. *)
Fixpoint endswith (s suffix : string) : bool :=
  String.eqb s suffix
  || match s with
     | EmptyString => false
     | String _ r => endswith r suffix
     end.

(** [s.lower()], on ASCII letters. *)
Definition lower_char (c : ascii) : ascii :=
  let n := nat_of_ascii c in
  if ((65 <=? n) && (n <=? 90))%nat then ascii_of_nat (n + 32) else c.

Fixpoint lower (s : string) : string :=
  match s with
  | EmptyString => EmptyString
  | String c r => String (lower_char c) (lower r)
  end.

(** [os.path.join(root, file)] on POSIX. *)
Definition path_join (root file : string) : string :=
  if String.prefix "/" file then file
  else if (root =? "") || endswith root "/" then root ++ file
  else root ++ "/" ++ file.

(** What [os.walk] yields: for each directory, its path, its
    sub-directories and its files. *)
Definition walk := list (string * list string * list string).

(** [find_json_files], the same in [cvss_metrics.py],
    [cvss_metric_plot.py] and [cwe_stats.py], on the directories
    [os.walk(root_folder)] yields. *)
Definition find_json_files (w : walk) : list string :=
  fold_left
    (fun json_files entry =>
       let '(root, _, files) := entry in
       fold_left
         (fun json_files file =>
            if endswith file ".json"
            then (json_files ++ [path_join root file])%list
            else json_files)
         files json_files)
    w [].

(** [count_json_files] of [json_counts.py]: the loop keeps a count and
    a list. *)
Definition count_json_files (w : walk) : nat * list string :=
  fold_left
    (fun acc entry =>
       let '(root, _, files) := entry in
       fold_left
         (fun acc file =>
            let '(json_count, json_files) := acc in
            if endswith (lower file) ".json"
            then (json_count + 1, (json_files ++ [path_join root file])%list)
            else acc)
         files acc)
    w (0, []).

(** A folder as [check_json_files] sees it. *)
Inductive listing : Type :=
  | Names (names : list string)
  | PermissionError
  | OtherError.     (* any other exception of os.listdir *)

Record folder : Type := mkFolder {
  folder_path : string;
  isdir : bool;
  listdir : listing
}.

(** What [check_json_files] prints, or the exception it lets through. *)
Inductive report : Type :=
  | NotAFolder (path : string)
  | NoPermissionSource (path : string)
  | NoPermissionComparison (found : nat)
  | MissingFiles (found : nat) (missing : list string)
  | AllPresent (found : nat)
  | Propagated.

Definition is_json (f : string) : bool := endswith (lower f) ".json".

(** [name in file_set]. *)
Definition member (name : string) (file_set : list string) : bool :=
  existsb (String.eqb name) file_set.

(** [file_set.add(f)]. *)
Definition set_add (f : string) (file_set : list string) : list string :=
  if member f file_set then file_set else (file_set ++ [f])%list.

Definition check_json_files (folder_x folder_y folder_z : folder) : report :=
  if negb (isdir folder_x) then NotAFolder (folder_path folder_x)
  else if negb (isdir folder_y) then NotAFolder (folder_path folder_y)
  else if negb (isdir folder_z) then NotAFolder (folder_path folder_z)
  else
    match listdir folder_x with
    | PermissionError => NoPermissionSource (folder_path folder_x)
    | OtherError => Propagated
    | Names x_names =>
        let x_files := filter is_json x_names in
        let found := List.length x_files in
        match listdir folder_y with
        | PermissionError => NoPermissionComparison found
        | OtherError => Propagated
        | Names y_names =>
            let y_files :=
              fold_left (fun s f => if is_json f then set_add f s else s)
                        y_names [] in
            match listdir folder_z with
            | PermissionError => NoPermissionComparison found
            | OtherError => Propagated
            | Names z_names =>
                let z_files :=
                  fold_left (fun s f => if is_json f then set_add f s else s)
                            z_names [] in
                let missing_files :=
                  filter (fun file_name =>
                            negb (member file_name y_files)
                            && negb (member file_name z_files))
                         x_files in
                match missing_files with
                | [] => AllPresent found
                | _ => MissingFiles found missing_files
                end
            end
        end
    end.

(** ** Weakness Extractor ([cwe_stats.py]) *)

Module cwe_stats.

(** [cwe_id.startswith('CWE-')]: only a [str] has the method. *)
Definition startswith_cwe (cwe_id : json) : result bool :=
  match cwe_id with
  | JStr s => Ok (String.prefix "CWE-" s)
  | _ => Raise AttributeError
  end.

(** The identifier counted for a truthy [cwe_id]: itself when it starts
    with [CWE-], else [f'CWE-{cwe_id}'].  The f-string is reached for a
    [str] only. *)
Definition standard_cwe (cwe_id : json) : result string :=
  (starts <- startswith_cwe cwe_id ;;
   match cwe_id with
   | JStr s => Ok (if starts then s else "CWE-" ++ s)
   | _ => Raise AttributeError
   end)%res.

(** *** [extract_cwe_ids_from_data]

    [cwe_ids] is a [set]: a list without repetition here.  The order in
    which [list(cwe_ids)] enumerates it is not fixed by Python; the
    properties below speak of membership and repetition only. *)

Definition add_cwe_id (cwe_ids : list string) (desc : json)
  : result (list string) :=
  (cwe_id <- get desc "cweId" JNull ;;
   if truthy cwe_id then
     standard <- standard_cwe cwe_id ;;
     Ok (set_add standard cwe_ids)
   else Ok cwe_ids)%res.

(** Body of [for problem_type in problem_types]. *)
Definition add_descriptions (cwe_ids : list string) (problem_type : json)
  : result (list string) :=
  (descriptions <- get problem_type "descriptions" (JArr []) ;;
   descs <- iter descriptions ;;
   for_each add_cwe_id descs cwe_ids)%res.

(** The two loops over the problem types of a container. *)
Definition add_problem_types (cwe_ids : list string) (container : json)
  : result (list string) :=
  (problem_types <- get container "problemTypes" (JArr []) ;;
   pts <- iter problem_types ;;
   for_each add_descriptions pts cwe_ids)%res.

Definition extract_cwe_ids_from_data (data : json) : result (list string) :=
  (let cwe_ids := [] in
   containers <- get data "containers" (JObj []) ;;
   cna_container <- get containers "cna" (JObj []) ;;
   cwe_ids <- (if truthy cna_container
               then add_problem_types cwe_ids cna_container
               else Ok cwe_ids) ;;
   containers <- get data "containers" (JObj []) ;;
   adp_containers <- get containers "adp" (JArr []) ;;
   adps <- iter adp_containers ;;
   for_each add_problem_types adps cwe_ids)%res.

(** *** [process_json_files_for_cwe] *)

Record state : Type := mkState {
  cwe_counter : Counter;
  location_counter : Counter;
  files_with_cwe : nat;
  total_files : nat;
  files_processed : nat;
  (* locals of the loop body *)
  has_cwe : bool;
  found_in_cna : bool;
  found_in_adp : bool;
  (* the "Error processing file" lines printed so far *)
  errors : list exn
}.

Definition set_cwe_counter (x : Counter) (s : state) :=
  mkState x (location_counter s) (files_with_cwe s) (total_files s)
    (files_processed s) (has_cwe s) (found_in_cna s) (found_in_adp s)
    (errors s).

Definition set_location_counter (x : Counter) (s : state) :=
  mkState (cwe_counter s) x (files_with_cwe s) (total_files s)
    (files_processed s) (has_cwe s) (found_in_cna s) (found_in_adp s)
    (errors s).

Definition set_files_with_cwe (x : nat) (s : state) :=
  mkState (cwe_counter s) (location_counter s) x (total_files s)
    (files_processed s) (has_cwe s) (found_in_cna s) (found_in_adp s)
    (errors s).

Definition set_total_files (x : nat) (s : state) :=
  mkState (cwe_counter s) (location_counter s) (files_with_cwe s) x
    (files_processed s) (has_cwe s) (found_in_cna s) (found_in_adp s)
    (errors s).

Definition set_files_processed (x : nat) (s : state) :=
  mkState (cwe_counter s) (location_counter s) (files_with_cwe s)
    (total_files s) x (has_cwe s) (found_in_cna s) (found_in_adp s)
    (errors s).

Definition set_has_cwe (x : bool) (s : state) :=
  mkState (cwe_counter s) (location_counter s) (files_with_cwe s)
    (total_files s) (files_processed s) x (found_in_cna s) (found_in_adp s)
    (errors s).

Definition set_found_in_cna (x : bool) (s : state) :=
  mkState (cwe_counter s) (location_counter s) (files_with_cwe s)
    (total_files s) (files_processed s) (has_cwe s) x (found_in_adp s)
    (errors s).

Definition set_found_in_adp (x : bool) (s : state) :=
  mkState (cwe_counter s) (location_counter s) (files_with_cwe s)
    (total_files s) (files_processed s) (has_cwe s) (found_in_cna s) x
    (errors s).

Definition set_errors (x : list exn) (s : state) :=
  mkState (cwe_counter s) (location_counter s) (files_with_cwe s)
    (total_files s) (files_processed s) (has_cwe s) (found_in_cna s)
    (found_in_adp s) x.

(** Statements over this state; the state reached when an exception is
    raised is kept. *)
Definition C (A : Type) : Type := state -> result A * state.

Definition ret {A} (a : A) : C A := fun s => (Ok a, s).

Definition bind {A B} (m : C A) (k : A -> C B) : C B :=
  fun s =>
    match m s with
    | (Ok a, s') => k a s'
    | (Raise x, s') => (Raise x, s')
    end.

Definition lift {A} (r : result A) : C A := fun s => (r, s).

Definition modify (f : state -> state) : C unit := fun s => (Ok tt, f s).

Definition gets {A} (f : state -> A) : C A := fun s => (Ok (f s), s).

Declare Scope cwe_scope.
Delimit Scope cwe_scope with cwe.
Notation "x <- m ;; k" := (bind m (fun x => k))
  (at level 61, m at next level, right associativity) : cwe_scope.
Notation "m ;; k" := (bind m (fun _ => k))
  (at level 61, right associativity) : cwe_scope.

Open Scope cwe_scope.

Fixpoint for_ {A} (l : list A) (body : A -> C unit) : C unit :=
  match l with
  | [] => ret tt
  | x :: r => body x ;; for_ r body
  end.

(** Where a description is found. *)
Inductive container : Type := cna | adp.

(** Body of [for desc in descriptions], in the cna and in the adp
    loops. *)
Definition count_description (loc : container) (desc : json) : C unit :=
  cwe_id <- lift (get desc "cweId" JNull) ;;
  if truthy cwe_id then
    modify (set_has_cwe true) ;;
    modify (match loc with
            | cna => set_found_in_cna true
            | adp => set_found_in_adp true
            end) ;;
    standard <- lift (standard_cwe cwe_id) ;;
    c <- gets cwe_counter ;;
    modify (set_cwe_counter (incr c (KStr standard)))
  else ret tt.

(** The loops over the problem types of a container and over the
    descriptions of each. *)
Definition count_problem_types (loc : container) (cont : json) : C unit :=
  problem_types <- lift (get cont "problemTypes" (JArr [])) ;;
  pts <- lift (iter problem_types) ;;
  for_ pts (fun problem_type =>
    descriptions <- lift (get problem_type "descriptions" (JArr [])) ;;
    descs <- lift (iter descriptions) ;;
    for_ descs (count_description loc)).

(** Lines 121-131: the file is counted. *)
Definition count_file : C unit :=
  has <- gets has_cwe ;;
  (if has then
     n <- gets files_with_cwe ;;
     modify (set_files_with_cwe (n + 1)) ;;
     in_cna <- gets found_in_cna ;;
     in_adp <- gets found_in_adp ;;
     l <- gets location_counter ;;
     if in_cna && in_adp then
       modify (set_location_counter (incr l (KStr "Both")))
     else if in_cna then
       modify (set_location_counter (incr l (KStr "cna only")))
     else if in_adp then
       modify (set_location_counter (incr l (KStr "adp only")))
     else ret tt
   else ret tt) ;;
  n <- gets files_processed ;;
  modify (set_files_processed (n + 1)).

(** The body of the [try] block for one file. *)
Definition try_body (f : file) : C unit :=
  data <- lift (load f) ;;
  modify (set_has_cwe false) ;;
  modify (set_found_in_cna false) ;;
  modify (set_found_in_adp false) ;;
  containers <- lift (get data "containers" (JObj [])) ;;
  cna_container <- lift (get containers "cna" (JObj [])) ;;
  (if truthy cna_container then count_problem_types cna cna_container
   else ret tt) ;;
  containers <- lift (get data "containers" (JObj [])) ;;
  adp_containers <- lift (get containers "adp" (JArr [])) ;;
  adps <- lift (iter adp_containers) ;;
  for_ adps (count_problem_types adp) ;;
  count_file.

(** One iteration of [for file_path in json_file_paths]. *)
Definition process_file (s : state) (f : file) : state :=
  let s := set_total_files (total_files s + 1) s in
  match try_body f s with
  | (Ok _, s') => s'
  | (Raise x, s') => set_errors (errors s' ++ [x]) s'
  end.

Definition start : state :=
  {| cwe_counter := []; location_counter := [];
     files_with_cwe := 0; total_files := 0; files_processed := 0;
     has_cwe := false; found_in_cna := false; found_in_adp := false;
     errors := [] |}.

(** [process_json_files_for_cwe], on the files [find_json_files] lists;
    the tuple it returns is read off the final state. *)
Definition process_json_files_for_cwe (files : list file) : state :=
  fold_left process_file files start.

Close Scope cwe_scope.

End cwe_stats.

(** * Vocabulary of the properties *)

(** ** Vector strings *)

(** Number of occurrences of a character. *)
Fixpoint occurrences (c : ascii) (s : string) : nat :=
  match s with
  | EmptyString => 0
  | String c' r => (if Ascii.eqb c' c then 1 else 0) + occurrences c r
  end.

Definition well_formed_part (part : string) : Prop :=
  (occurrences ":" part <= 1)%nat.

Definition ill_formed_part (part : string) : Prop :=
  (2 <= occurrences ":" part)%nat.

Definition keeps_keys (m m' : dict) : Prop :=
  forall k, has_key k m = true -> has_key k m' = true.

(** ** Numeric scores *)

(** A numeric base score: a Python [int] or [float]. *)
Inductive number : Type :=
  | NInt (z : Z)
  | NFloat (f : pyfloat).

Definition json_of_number (n : number) : json :=
  match n with
  | NInt z => JInt z
  | NFloat f => JFloat f
  end.

(** [c <= n] as numbers; it holds of no threshold when [n] is NaN. *)
Definition at_least (c : Q) (n : number) : Prop :=
  match n with
  | NInt z => (c <= inject_Z z)%Q
  | NFloat (FFin q) => (c <= q)%Q
  | NFloat FPosInf => True
  | NFloat _ => False
  end.

(** ** Counters and counted values *)

(** The counter [frequency_counter[name]] of a state. *)
Definition counter_of (name : string) (e : env) : Counter :=
  match lookup name (frequency_counter e) with
  | Some c => c
  | None => []
  end.

(** The values a counter holds a count for. *)
Definition counted (c : Counter) : list key := map fst c.

Definition canonical_impacts : list string :=
  ["HIGH"; "LOW"; "NONE"; "MEDIUM"; "N/A"].




(** ** Documents and tiers *)

(** The exception raised for a file that cannot be read or parsed, or
    whose top-level value is not an object. *)
Definition decode_failure (f : file) : option exn :=
  match f with
  | Unreadable => Some LoadError
  | Loaded (JObj _) => None
  | Loaded _ => Some AttributeError
  end.

(** None of the three version keys is found in the block. *)
Definition unknown_version (cvss_data : json) : Prop :=
  contains "cvssV3_1" cvss_data = Ok false
  /\ contains "cvssV3_0" cvss_data = Ok false
  /\ contains "cvssV2_0" cvss_data = Ok false.

(** An adp section whose metrics list is non-empty. *)
Definition contributes (adp : json) : bool :=
  match get adp "metrics" (JArr []) with
  | Ok adp_metrics => truthy adp_metrics
  | Raise _ => false
  end.

Inductive tier : Type :=
  | primary      (* the cna container *)
  | secondary.   (* the adp containers *)

(** The tier whose blocks are counted, with what [process_json_files]
    reads of it: the metrics list of the cna container when it is
    non-empty; else the adp list when one of its sections has a non-empty
    metrics list. *)
Definition winning_tier (data : json) : option (tier * json) :=
  match cna_metrics_of data with
  | Ok cna_metrics =>
      if truthy cna_metrics then Some (primary, cna_metrics)
      else
        match adp_list_of data with
        | Ok adp_list =>
            match iter adp_list with
            | Ok adps =>
                if existsb contributes adps then Some (secondary, adp_list)
                else None
            | Raise _ => None
            end
        | Raise _ => None
        end
  | Raise _ => None
  end.

(** ** Statements *)

Open Scope stmt_scope.

(** A property of the state that a statement keeps, whether it returns
    or raises. *)
Definition preserves (I : env -> Prop) {A} (m : M A) : Prop :=
  forall e, I e -> I (snd (m e)).

Definition found (e : env) : Prop := has_metrics e = true.

(** The three tiers and the count of the file, from the state [e]. *)
Definition tiers normalize (data : json) : M unit :=
  cna_tier normalize data ;;
  adp_tier normalize data ;;
  legacy_tier data ;;
  count_file.

Close Scope stmt_scope.

(** ** Sample documents *)

Definition score_9_8 : json :=
  JFloat (FFin (2758454771764429 # 281474976710656)%Q).

Definition block_v31 : json :=
  JObj [ ("cvssV3_1",
          JObj [ ("vectorString",
                  JStr "CVSS:3.1/AV:N/AC:L/PR:N/UI:N/S:U/C:H/I:H/A:H");
                 ("baseScore", score_9_8);
                 ("baseSeverity", JStr "CRITICAL") ]) ].

Definition block_v20 : json :=
  JObj [ ("cvssV2_0",
          JObj [ ("vectorString", JStr "AV:N/AC:L/Au:N/C:P/I:P/A:P");
                 ("baseScore", JFloat (FFin (15 # 2))) ]) ].

Definition block_high_with_low_score : dict :=
  [ ("cvssV3_1",
     JObj [ ("baseScore", JFloat (FFin 2)); ("baseSeverity", JStr "HIGH") ]) ].

Definition cna_document (blocks : list json) : json :=
  JObj [ ("containers", JObj [ ("cna", JObj [ ("metrics", JArr blocks) ]) ]) ].

Definition legacy_v3_document (base_score : json) : json :=
  JObj [ ("impact",
          JObj [ ("baseMetricV3",
                  JObj [ ("cvssV3", JObj [ ("baseScore", base_score) ]) ]) ]) ].


Definition document_two_v31_blocks : json :=
  cna_document [block_v31; block_v31].

Definition document_v31_and_v20 : json :=
  cna_document [block_v31; block_v20].

Definition document_all_tiers : json :=
  JObj [ ("containers",
          JObj [ ("cna", JObj [ ("metrics", JArr [block_v31]) ]);
                 ("adp", JArr [ JObj [ ("metrics", JArr [block_v20]) ] ]) ]);
         ("impact",
          JObj [ ("baseMetricV3",
                  JObj [ ("cvssV3", JObj [ ("baseScore", score_9_8) ]) ]) ]) ].

Definition document_unknown_blocks : json :=
  JObj [ ("containers",
          JObj [ ("cna",
                  JObj [ ("metrics",
                          JArr [ JObj [ ("cvssV4_0", JObj []) ];
                                 JObj [ ("other", JStr "x") ] ]) ]);
                 ("adp", JArr [ JObj [ ("metrics", JArr [block_v20]) ] ]) ]);
         ("impact",
          JObj [ ("baseMetricV3",
                  JObj [ ("cvssV3", JObj [ ("baseScore", score_9_8) ]) ]) ]) ].

(** ** Grammars of the vector strings *)

(** The keys [parse_vector_string] recognises, with the dimension each
    one sets. *)
Definition v3_keys : list (string * string) :=
  [ ("C", "Confidentiality"); ("I", "Integrity"); ("A", "Availability");
    ("AV", "Attack Vector"); ("AC", "Attack Complexity");
    ("PR", "Privileges Required"); ("UI", "User Interaction");
    ("S", "Scope") ].

(** The keys [parse_vector_string_v2] recognises. *)
Definition v2_keys : list (string * string) :=
  [ ("C", "Confidentiality"); ("I", "Integrity"); ("A", "Availability");
    ("AV", "Attack Vector"); ("AC", "Attack Complexity");
    ("Au", "Authentication") ].

(** A map with the dimensions of [initial], in the same order, whose
    values are strings and whose [baseSeverity] is N/A. *)
Definition grammar_map (initial m : dict) : Prop :=
  keys m = keys initial
  /\ lookup "baseSeverity" m = Some (JStr "N/A")
  /\ Forall (fun kv => exists t, snd kv = JStr t) m.

(** A segment is free of the separator [c]. *)
Definition free_of (c : ascii) (s : string) : Prop := has_char c s = false.

(** ** Version keys and severity labels *)

(** The version key a block is decoded by, with its value: the first of
    [cvssV3_1], [cvssV3_0], [cvssV2_0] that the block has. *)
Definition version_of (block : dict) : option (string * json) :=
  match lookup "cvssV3_1" block with
  | Some cvss => Some ("cvssV3_1", cvss)
  | None =>
      match lookup "cvssV3_0" block with
      | Some cvss => Some ("cvssV3_0", cvss)
      | None =>
          match lookup "cvssV2_0" block with
          | Some cvss => Some ("cvssV2_0", cvss)
          | None => None
          end
      end
  end.

Definition severity_labels : list string :=
  ["Critical"; "High"; "Medium"; "Low"; "N/A"].

(** The labels a [baseSeverity] field is recognised by. *)
Definition known_labels : list string :=
  ["CRITICAL"; "HIGH"; "MEDIUM"; "LOW"].

(** Severity labels in increasing order. *)
Definition rank (label : string) : nat :=
  if label =? "Critical" then 4
  else if label =? "High" then 3
  else if label =? "Medium" then 2
  else if label =? "Low" then 1
  else 0.

(** The exact value of a numeric score. *)
Definition exact (n : number) : pyfloat :=
  match n with
  | NInt z => FFin (inject_Z z)
  | NFloat f => f
  end.

(** [f <= g] as Python compares floats; NaN is related to nothing. *)
Definition float_le (f g : pyfloat) : Prop :=
  match f, g with
  | FNaN, _ | _, FNaN => False
  | FNegInf, _ => True
  | _, FPosInf => True
  | FFin p, FFin q => (p <= q)%Q
  | _, _ => False
  end.

(** The values [>=] compares with a float: [bool], [int], [float]. *)
Definition numeric (x : json) : bool :=
  match x with
  | JBool _ | JInt _ | JFloat _ => true
  | _ => false
  end.

(** The parser of the grammar of a version key. *)
Definition parser_of (version : string) : json -> result dict :=
  if version =? "cvssV2_0" then parse_vector_string_v2
  else parse_vector_string.

(** [n >= c], which never raises on a number. *)
Definition ge_number (n : number) (c : Q) : bool :=
  match n with
  | NInt z => Qle_bool c (inject_Z z)
  | NFloat (FFin q) => Qle_bool c q
  | NFloat FPosInf => true
  | NFloat _ => false
  end.


(** ** States of the aggregator *)

(** The totals of [e] are those of [e0]. *)
Definition same_totals (e0 e : env) : Prop :=
  total_files e = total_files e0
  /\ files_processed e = files_processed e0
  /\ files_with_metrics e = files_with_metrics e0
  /\ errors e = errors e0.

(** [Q] holds of the outcome of a statement run from a state where [I]
    holds. *)
Definition post (I : env -> Prop) {A} (Q : result A * env -> Prop)
  (m : M A) : Prop :=
  forall e, I e -> Q (m e).

(** What the [try] block does to the totals of [e0]: counted as
    processed, and once at most as a file with metrics, when it returns;
    nothing when it raises. *)
Definition file_counted (e0 : env) (o : result unit * env) : Prop :=
  let (r, e) := o in
  total_files e = total_files e0 /\ errors e = errors e0
  /\ match r with
     | Ok _ =>
         files_processed e = files_processed e0 + 1
         /\ (files_with_metrics e = files_with_metrics e0
             \/ files_with_metrics e = files_with_metrics e0 + 1)
     | Raise _ =>
         files_processed e = files_processed e0
         /\ files_with_metrics e = files_with_metrics e0
     end.

(** Every value counted in the SeverityLevel counter is a severity
    label. *)
Definition severity_levels_are_labels (e : env) : Prop :=
  forall k, In k (counted (counter_of "SeverityLevel" e)) ->
            exists s, k = KStr s /\ In s severity_labels.

(** No count of [e0], and no total, is greater than in [e]. *)
Definition grows (e0 e : env) : Prop :=
  (forall name k, count (counter_of name e0) k <= count (counter_of name e) k)
  /\ total_files e0 <= total_files e
  /\ files_processed e0 <= files_processed e
  /\ files_with_metrics e0 <= files_with_metrics e
  /\ cvss_v2_files e0 <= cvss_v2_files e
  /\ cvss_v3_files e0 <= cvss_v3_files e.


(** Lines 325-328: [impact.baseMetricV3.cvssV3] of a legacy document. *)
Definition legacy_cvss_v3 (data : json) : result json :=
  (impact_data <- get data "impact" (JObj []) ;;
   base_metric_v3 <- get impact_data "baseMetricV3" (JObj []) ;;
   get base_metric_v3 "cvssV3" (JObj []))%res.

(** ** File listings *)

(** The joined paths, in walk order, of the files whose name satisfies
    [accept]. *)
Definition listed (accept : string -> bool) (w : walk) : list string :=
  flat_map
    (fun entry =>
       let '(root, _, files) := entry in
       map (path_join root) (filter accept files))
    w.

(** The names of [x_names] that end in [.json] in any letter case and
    are in neither [y_names] nor [z_names]. *)
Definition absent_from_both (x_names y_names z_names : list string)
  : list string :=
  filter (fun f => is_json f && negb (member f y_names)
                   && negb (member f z_names))
         x_names.

(** ** States of the weakness counter *)

(** The sum of the counts of a counter. *)
Definition total (c : Counter) : nat := list_sum (map snd c).

(** An identifier in standard form. *)
Definition standard_form (id : string) : Prop :=
  String.prefix "CWE-" id = true.

(** Every identifier counted is a string in standard form. *)
Definition cwe_keys_standard (s : cwe_stats.state) : Prop :=
  forall k, In k (counted (cwe_stats.cwe_counter s)) ->
            exists id, k = KStr id /\ standard_form id.

(** A property of the state that a statement of [cwe_stats] keeps,
    whether it returns or raises. *)
Definition cwe_preserves (I : cwe_stats.state -> Prop) {A}
  (m : cwe_stats.C A) : Prop :=
  forall s, I s -> I (snd (m s)).

(** [Q] holds of the outcome of a statement run from a state where [I]
    holds. *)
Definition cwe_post (I : cwe_stats.state -> Prop) {A}
  (Q : result A * cwe_stats.state -> Prop) (m : cwe_stats.C A) : Prop :=
  forall s, I s -> Q (m s).

(** In the course of one file: the totals of [s0] are untouched, and
    [has_cwe] is set exactly when one of the two location flags is. *)
Definition cwe_in_file (s0 s : cwe_stats.state) : Prop :=
  cwe_stats.location_counter s = cwe_stats.location_counter s0
  /\ cwe_stats.files_with_cwe s = cwe_stats.files_with_cwe s0
  /\ cwe_stats.files_processed s = cwe_stats.files_processed s0
  /\ cwe_stats.total_files s = cwe_stats.total_files s0
  /\ cwe_stats.errors s = cwe_stats.errors s0
  /\ cwe_stats.has_cwe s
     = cwe_stats.found_in_cna s || cwe_stats.found_in_adp s.

(** What the [try] block does to the totals of [s0]. *)
Definition cwe_file_counted (s0 : cwe_stats.state)
  (o : result unit * cwe_stats.state) : Prop :=
  let (r, s) := o in
  cwe_stats.total_files s = cwe_stats.total_files s0
  /\ cwe_stats.errors s = cwe_stats.errors s0
  /\ match r with
     | Ok _ =>
         cwe_stats.files_processed s = cwe_stats.files_processed s0 + 1
         /\ ((cwe_stats.files_with_cwe s = cwe_stats.files_with_cwe s0
              /\ total (cwe_stats.location_counter s)
                 = total (cwe_stats.location_counter s0))
             \/ (cwe_stats.files_with_cwe s = cwe_stats.files_with_cwe s0 + 1
                 /\ total (cwe_stats.location_counter s)
                    = total (cwe_stats.location_counter s0) + 1))
     | Raise _ =>
         cwe_stats.files_processed s = cwe_stats.files_processed s0
         /\ cwe_stats.files_with_cwe s = cwe_stats.files_with_cwe s0
         /\ total (cwe_stats.location_counter s)
            = total (cwe_stats.location_counter s0)
     end.

(** The totals of a state of [cwe_stats] add up. *)
Definition cwe_accounts (s : cwe_stats.state) : Prop :=
  cwe_stats.files_processed s + List.length (cwe_stats.errors s)
  = cwe_stats.total_files s
  /\ cwe_stats.files_with_cwe s <= cwe_stats.files_processed s
  /\ total (cwe_stats.location_counter s) = cwe_stats.files_with_cwe s.

(** A set of identifiers in standard form. *)
Definition standard_set (ids : list string) : Prop :=
  NoDup ids /\ forall id, In id ids -> standard_form id.


Definition document_two_cwe : json :=
  JObj [ ("containers",
     JObj [ ("cna",
             JObj [ ("problemTypes",
                JArr [ JObj [ ("descriptions",
                   JArr [ JObj [ ("cweId", JStr "79") ];
                          JObj [ ("description", JStr "n/a") ] ]) ] ]) ]);
            ("adp",
             JArr [ JObj [ ("problemTypes",
                JArr [ JObj [ ("descriptions",
                   JArr [ JObj [ ("cweId", JStr "CWE-79") ];
                          JObj [ ("cweId", JStr "CWE-89") ] ]) ] ]) ] ]) ]) ].

(** ** Documents with a score source *)

(** The legacy [impact] object holds a non-empty [cvssV3] or, failing
    that, a non-empty [cvssV2]. *)
Definition legacy_found (data : json) : bool :=
  match get data "impact" (JObj []) with
  | Ok impact_data =>
      is_dict impact_data
      && match legacy_cvss_v3 data with
         | Ok cvss_v3 =>
             truthy cvss_v3
             || match (base_metric_v2 <-
                         get impact_data "baseMetricV2" (JObj []) ;;
                       get base_metric_v2 "cvssV2" (JObj []))%res with
                | Ok cvss_v2 => truthy cvss_v2
                | Raise _ => false
                end
         | Raise _ => false
         end
  | Raise _ => false
  end.

(** The document has a place where scores are looked for and found
    non-empty: the cna metrics list, the metrics list of an adp section,
    or the legacy [impact] object. *)
Definition has_score_source (data : json) : bool :=
  match winning_tier data with
  | Some _ => true
  | None => legacy_found data
  end.

(** * Properties *)

(** ** Vector Grammar Parser *)

Example parse_vector_string_full :
  parse_vector_string (JStr "AV:N/AC:L/PR:N/UI:N/S:U/C:H/I:H/A:H")
  = Ok [ ("Confidentiality", JStr "H"); ("Integrity", JStr "H");
         ("Availability", JStr "H"); ("Attack Vector", JStr "N");
         ("Attack Complexity", JStr "L"); ("Privileges Required", JStr "N");
         ("User Interaction", JStr "N"); ("Scope", JStr "U");
         ("baseSeverity", JStr "N/A") ].
Proof. reflexivity. Qed.

Example parse_vector_string_empty :
  parse_vector_string (JStr "") = Ok v3_initial.
Proof. reflexivity. Qed.

Example parse_vector_string_no_colon :
  parse_vector_string (JStr "junk/C:H//I") 
  = Ok (dict_set "Confidentiality" (JStr "H") v3_initial).
Proof. reflexivity. Qed.

(** *** Dictionaries *)

Lemma lookup_dict_set_same {V} (k : string) (v : V) d :
  lookup k (dict_set k v d) = Some v.
Proof.
  induction d as [|[k' v'] r IH]; simpl.
  - now rewrite String.eqb_refl.
  - destruct (k =? k') eqn:E; simpl; rewrite E; auto.
Qed.

Lemma lookup_dict_set_other {V} (k k' : string) (v : V) d :
  k <> k' -> lookup k (dict_set k' v d) = lookup k d.
Proof.
  intros N. induction d as [|[k2 v2] r IH]; simpl.
  - apply String.eqb_neq in N. now rewrite N.
  - destruct (k' =? k2) eqn:E; simpl.
    + apply String.eqb_eq in E. subst k2.
      apply String.eqb_neq in N. now rewrite N.
    + destruct (k =? k2); auto.
Qed.

Lemma has_key_dict_set {V} (k k' : string) (v : V) d :
  has_key k d = true -> has_key k (dict_set k' v d) = true.
Proof.
  unfold has_key. destruct (String.eqb_spec k k') as [->|N].
  - now rewrite lookup_dict_set_same.
  - now rewrite lookup_dict_set_other.
Qed.

(** *** Splitting *)

Lemma split_length c s : List.length (split c s) = S (occurrences c s).
Proof.
  induction s as [|c' r IH]; simpl; auto.
  destruct (Ascii.eqb c' c); simpl.
  - now rewrite IH.
  - destruct (split c r); simpl in *; [discriminate | auto].
Qed.

Lemma has_char_occurrences c s :
  has_char c s = negb (occurrences c s =? 0)%nat.
Proof.
  induction s as [|c' r IH]; simpl; auto.
  destruct (Ascii.eqb c' c); simpl; auto.
Qed.

Lemma unpack2_ok parts :
  List.length parts = 2 -> exists k v, unpack2 parts = Ok (k, v).
Proof.
  destruct parts as [|k [|v [|x r]]]; simpl; try discriminate.
  intros _. now exists k, v.
Qed.

Lemma unpack2_raises parts :
  List.length parts <> 2 -> unpack2 parts = Raise ValueError.
Proof.
  destruct parts as [|k [|v [|x r]]]; simpl; auto. congruence.
Qed.

(** *** The loop bodies *)

Ltac case_keys :=
  repeat match goal with
         | |- context [if ?b then _ else _] => destruct b
         end.

Lemma v3_part_ok metrics part :
  (occurrences ":" part <= 1)%nat ->
  exists metrics', v3_part metrics part = Ok metrics'
    /\ forall k, has_key k metrics = true -> has_key k metrics' = true.
Proof.
  intros H. unfold v3_part. rewrite has_char_occurrences.
  destruct (occurrences ":" part) as [|[|n]] eqn:E; simpl; try lia.
  - exists metrics. auto.
  - destruct (unpack2_ok (split ":" part)) as (k & v & U).
    { now rewrite split_length, E. }
    rewrite U. simpl. case_keys; eexists; split; try reflexivity;
      auto using has_key_dict_set.
Qed.

Lemma v2_part_ok metrics part :
  (occurrences ":" part <= 1)%nat ->
  exists metrics', v2_part metrics part = Ok metrics'
    /\ forall k, has_key k metrics = true -> has_key k metrics' = true.
Proof.
  intros H. unfold v2_part. rewrite has_char_occurrences.
  destruct (occurrences ":" part) as [|[|n]] eqn:E; simpl; try lia.
  - exists metrics. auto.
  - destruct (unpack2_ok (split ":" part)) as (k & v & U).
    { now rewrite split_length, E. }
    rewrite U. simpl. case_keys; eexists; split; try reflexivity;
      auto using has_key_dict_set.
Qed.

Lemma v3_part_raises metrics part :
  (2 <= occurrences ":" part)%nat -> v3_part metrics part = Raise ValueError.
Proof.
  intros H. unfold v3_part. rewrite has_char_occurrences.
  destruct (occurrences ":" part) as [|n] eqn:E; [lia|]. simpl.
  rewrite unpack2_raises; auto. rewrite split_length, E. lia.
Qed.

Lemma v2_part_raises metrics part :
  (2 <= occurrences ":" part)%nat -> v2_part metrics part = Raise ValueError.
Proof.
  intros H. unfold v2_part. rewrite has_char_occurrences.
  destruct (occurrences ":" part) as [|n] eqn:E; [lia|]. simpl.
  rewrite unpack2_raises; auto. rewrite split_length, E. lia.
Qed.

Section ForEach.

Context {A S : Type} (body : S -> A -> result S).
Variable good : A -> Prop.
Variable keeps : S -> S -> Prop.
Hypothesis keeps_refl : forall s, keeps s s.
Hypothesis keeps_trans : forall s t u, keeps s t -> keeps t u -> keeps s u.
Hypothesis body_ok :
  forall s x, good x -> exists s', body s x = Ok s' /\ keeps s s'.

Lemma for_each_ok l s :
  Forall good l -> exists s', for_each body l s = Ok s' /\ keeps s s'.
Proof.
  intros F. revert s. induction F as [|x r Hx _ IH]; intros s; simpl.
  - exists s. auto.
  - destruct (body_ok s x Hx) as (s1 & -> & K1). simpl.
    destruct (IH s1) as (s2 & -> & K2). exists s2. eauto.
Qed.

Variable bad : A -> Prop.
Variable err : exn.
Hypothesis body_raises : forall s x, bad x -> body s x = Raise err.
Hypothesis good_or_bad : forall x, good x \/ bad x.

Lemma for_each_raises l s :
  Exists bad l -> for_each body l s = Raise err.
Proof.
  intros E. revert s. induction l as [|x r IH]; intros s.
  - inversion E.
  - simpl. inversion E as [y l B|y l T]; subst.
    + now rewrite body_raises.
    + destruct (good_or_bad x) as [G|B].
      * destruct (body_ok s x G) as (s1 & -> & _). simpl. auto.
      * now rewrite body_raises.
Qed.

End ForEach.

(** On a string whose segments hold at most one colon each, both parsers
    return, and the map returned has every key of the grammar. *)
Lemma parse_vector_string_returns (s : string) :
  Forall well_formed_part (split "/" s) ->
  exists m, parse_vector_string (JStr s) = Ok m /\ keeps_keys v3_initial m.
Proof.
  intros F. unfold parse_vector_string.
  destruct (negb (truthy (JStr s))).
  - exists v3_initial. split; auto. now intros k.
  - simpl. apply (for_each_ok v3_part well_formed_part keeps_keys); auto.
    + now intros m k.
    + intros m1 m2 m3 H1 H2 k Hk. auto.
    + intros m p Hp. now apply v3_part_ok.
Qed.

Lemma parse_vector_string_v2_returns (s : string) :
  Forall well_formed_part (split "/" s) ->
  exists m, parse_vector_string_v2 (JStr s) = Ok m /\ keeps_keys v2_initial m.
Proof.
  intros F. unfold parse_vector_string_v2.
  destruct (negb (truthy (JStr s))).
  - exists v2_initial. split; auto. now intros k.
  - simpl. apply (for_each_ok v2_part well_formed_part keeps_keys); auto.
    + now intros m k.
    + intros m1 m2 m3 H1 H2 k Hk. auto.
    + intros m p Hp. now apply v2_part_ok.
Qed.

Lemma part_formed (part : string) :
  well_formed_part part \/ ill_formed_part part.
Proof. unfold well_formed_part, ill_formed_part. lia. Qed.

Lemma split_nonempty_string c s :
  Exists ill_formed_part (split c s) -> s <> "".
Proof.
  intros E ->. simpl in E. inversion E as [x l H|x l H]; subst.
  - unfold ill_formed_part in H. simpl in H. lia.
  - inversion H.
Qed.

(** A segment with two colons or more makes both parsers raise. *)
Lemma parse_vector_string_raises (s : string) :
  Exists ill_formed_part (split "/" s) ->
  parse_vector_string (JStr s) = Raise ValueError
  /\ parse_vector_string_v2 (JStr s) = Raise ValueError.
Proof.
  intros E. pose proof (split_nonempty_string _ _ E) as N.
  apply String.eqb_neq in N.
  unfold parse_vector_string, parse_vector_string_v2. simpl. rewrite N. simpl.
  split.
  - apply for_each_raises
      with (good := well_formed_part) (keeps := keeps_keys)
           (bad := ill_formed_part); auto.
    + intros m p Hp. now apply v3_part_ok.
    + intros m p Hp. now apply v3_part_raises.
    + apply part_formed.
  - apply for_each_raises
      with (good := well_formed_part) (keeps := keeps_keys)
           (bad := ill_formed_part); auto.
    + intros m p Hp. now apply v2_part_ok.
    + intros m p Hp. now apply v2_part_raises.
    + apply part_formed.
Qed.

(** C1.  The vector string [AV:N/C:H:X/I:L] holds a segment that does not
    split into one key and one value: [parse_vector_string] and
    [parse_vector_string_v2] raise [ValueError] on it instead of skipping
    the segment, and the document that carries it is reported as failed. *)
Theorem C1_parse_vector_string_raises :
  parse_vector_string (JStr "AV:N/C:H:X/I:L") = Raise ValueError
  /\ parse_vector_string_v2 (JStr "AV:N/C:H:X/I:L") = Raise ValueError
  /\ errors (cvss_metrics.process_json_files
       [ Loaded (cna_document
           [ JObj [ ("cvssV3_1",
                     JObj [ ("vectorString", JStr "AV:N/C:H:X/I:L") ]) ] ]) ])
     = [ValueError].
Proof. repeat split; reflexivity. Qed.

(** ** Severity Resolver *)

Lemma ge_at_least (n : number) (c : Q) :
  (at_least c n -> ge (json_of_number n) c = Ok true)
  /\ (~ at_least c n -> ge (json_of_number n) c = Ok false).
Proof.
  destruct n as [z|[| | |q]]; simpl; split; intros H;
    try reflexivity; try tauto.
  - apply Qle_bool_iff in H. now rewrite H.
  - destruct (Qle_bool c (inject_Z z)) eqn:E; auto.
    apply Qle_bool_iff in E. tauto.
  - apply Qle_bool_iff in H. now rewrite H.
  - destruct (Qle_bool c q) eqn:E; auto.
    apply Qle_bool_iff in E. tauto.
Qed.

Lemma at_least_mono (c d : Q) (n : number) :
  (c <= d)%Q -> at_least d n -> at_least c n.
Proof.
  destruct n as [z|[| | |q]]; simpl; auto; intros; eapply Qle_trans; eauto.
Qed.

Ltac threshold :=
  repeat match goal with
         | H : at_least ?c ?n |- context [ge (json_of_number ?n) ?c] =>
             rewrite (proj1 (ge_at_least n c) H); simpl
         | H : ~ at_least ?c ?n |- context [ge (json_of_number ?n) ?c] =>
             rewrite (proj2 (ge_at_least n c) H); simpl
         end.

Lemma below_9 n : ~ at_least 7 n -> ~ at_least 9 n.
Proof. intros H G. apply H. eapply at_least_mono; eauto. discriminate. Qed.

Lemma below_7 n : ~ at_least 4 n -> ~ at_least 7 n.
Proof. intros H G. apply H. eapply at_least_mono; eauto. discriminate. Qed.

Lemma below_4 n : ~ at_least lit_0_1 n -> ~ at_least 4 n.
Proof. intros H G. apply H. eapply at_least_mono; eauto. discriminate. Qed.

(** C8.  Severity of a numeric base score [n]: under v3, Critical from
    9.0, High from 7.0, Medium from 4.0, Low from 0.1 and N/A below; under
    v2 the same without the Critical tier, so that 9.8 is High. *)
Theorem C8_calculate_severity_from_score (n : number) :
  let v3 := calculate_severity_from_score (json_of_number n) "v3" in
  let v2 := calculate_severity_from_score (json_of_number n) "v2" in
  (at_least 9 n -> v3 = Ok "Critical")
  /\ (at_least 7 n -> ~ at_least 9 n -> v3 = Ok "High")
  /\ (at_least 4 n -> ~ at_least 7 n -> v3 = Ok "Medium")
  /\ (at_least lit_0_1 n -> ~ at_least 4 n -> v3 = Ok "Low")
  /\ (~ at_least lit_0_1 n -> v3 = Ok "N/A")
  /\ (at_least 7 n -> v2 = Ok "High")
  /\ (at_least 4 n -> ~ at_least 7 n -> v2 = Ok "Medium")
  /\ (at_least lit_0_1 n -> ~ at_least 4 n -> v2 = Ok "Low")
  /\ (~ at_least lit_0_1 n -> v2 = Ok "N/A")
  /\ calculate_severity_from_score score_9_8 "v3" = Ok "Critical"
  /\ calculate_severity_from_score score_9_8 "v2" = Ok "High".
Proof.
  cbv zeta. unfold calculate_severity_from_score. simpl String.eqb. cbv iota.
  repeat split; intros;
    repeat match goal with
           | H : ~ at_least lit_0_1 n |- _ =>
               pose proof (below_4 n H); pose proof (below_7 n (below_4 n H));
               pose proof (below_9 n (below_7 n (below_4 n H))); revert H
           | H : ~ at_least 4 n |- _ =>
               pose proof (below_7 n H); pose proof (below_9 n (below_7 n H));
               revert H
           | H : ~ at_least 7 n |- _ => pose proof (below_9 n H); revert H
           end; intros; threshold; reflexivity.
Qed.

Lemma C8_witness :
  let n := NFloat (FFin (15 # 2)) in
  at_least 7 n /\ ~ at_least 9 n
  /\ calculate_severity_from_score (json_of_number n) "v3" = Ok "High"
  /\ calculate_severity_from_score (json_of_number n) "v2" = Ok "High".
Proof.
  assert (H7 : at_least 7 (NFloat (FFin (15 # 2)))) by (simpl; discriminate).
  assert (H9 : ~ at_least 9 (NFloat (FFin (15 # 2)))).
  { simpl. intros H. apply H. reflexivity. }
  pose proof (C8_calculate_severity_from_score (NFloat (FFin (15 # 2)))) as T.
  cbv zeta in T. destruct T as (_ & T3 & _ & _ & _ & T2 & _).
  cbv zeta.
  split; [exact H7 | split; [exact H9 | split; [exact (T3 H7 H9) | exact (T2 H7)]]].
Defined.

(** C7.  A v3.1 block, or a v3.0 block without a [cvssV3_1] key, whose
    [baseSeverity] is one of the four known labels resolves to that label,
    whatever else the block holds, a [baseScore] included. *)
Theorem C7_label_takes_priority (block cvss : dict) (label severity : string) :
  lookup "cvssV3_1" block = Some (JObj cvss)
  \/ (lookup "cvssV3_1" block = None
      /\ lookup "cvssV3_0" block = Some (JObj cvss)) ->
  lookup "baseSeverity" cvss = Some (JStr label) ->
  In (label, severity)
     [ ("CRITICAL", "Critical"); ("HIGH", "High");
       ("MEDIUM", "Medium"); ("LOW", "Low") ] ->
  extract_severity_from_cvss (JObj block) = Ok severity.
Proof.
  intros D L K. unfold extract_severity_from_cvss. simpl. unfold has_key.
  assert (S3 : severity_v3 (JObj cvss) = Ok severity).
  { unfold severity_v3. simpl. rewrite L.
    simpl in K. destruct K as [K|[K|[K|[K|[]]]]]; inversion K; reflexivity. }
  destruct D as [D|[D0 D1]].
  - rewrite D. simpl. exact S3.
  - rewrite D0. simpl. rewrite D1. simpl. exact S3.
Qed.

Lemma C7_witness :
  calculate_severity_from_score (JFloat (FFin 2)) "v3" = Ok "Low"
  /\ extract_severity_from_cvss (JObj block_high_with_low_score) = Ok "High".
Proof.
  split; [reflexivity|].
  apply (C7_label_takes_priority block_high_with_low_score
           [ ("baseScore", JFloat (FFin 2)); ("baseSeverity", JStr "HIGH") ]
           "HIGH" "High").
  - left. reflexivity.
  - reflexivity.
  - simpl. right. left. reflexivity.
Defined.

(** ** Impact normalization *)

Lemma normalize_impact_canonical (py_repr : json -> string) (value : json) :
  exists s, normalize_impact py_repr value = JStr s /\ In s canonical_impacts.
Proof.
  unfold normalize_impact.
  destruct (is_none value); [exists "N/A"; simpl; tauto|].
  cbv zeta.
  repeat match goal with
         | |- context [if ?b then _ else _] => destruct b
         end;
    eexists; (split; [reflexivity | simpl; tauto]).
Qed.

Example normalize_impact_letters (py_repr : json -> string) :
  map (normalize_impact py_repr)
      [JStr "H"; JStr "HIGH"; JStr "L"; JStr "LOW"; JStr "N"; JStr "NONE";
       JStr "M"; JStr "MEDIUM"; JStr "P"; JStr ""; JNull]
  = map JStr ["HIGH"; "HIGH"; "LOW"; "LOW"; "NONE"; "NONE";
              "MEDIUM"; "MEDIUM"; "N/A"; "N/A"; "N/A"].
Proof. reflexivity. Qed.

(** C9.  [normalize_impact] is idempotent. *)
Theorem C9_normalize_impact_idempotent (py_repr : json -> string) (x : json) :
  normalize_impact py_repr (normalize_impact py_repr x)
  = normalize_impact py_repr x.
Proof.
  destruct (normalize_impact_canonical py_repr x) as (s & -> & H).
  simpl in H. destruct H as [<-|[<-|[<-|[<-|[<-|[]]]]]]; reflexivity.
Qed.

(** ** Aggregator: evaluations *)

(** C5.  One document whose cna metrics list holds two v3.1 blocks adds
    two to [cvss_v3_files]; one that holds a v3.1 block and a v2.0 block
    adds one to each of [cvss_v3_files] and [cvss_v2_files].  Both are
    counted in [files_with_metrics] once. *)
Theorem C5_version_counted_per_block :
  let e := cvss_metrics.process_json_files [Loaded document_two_v31_blocks] in
  let e' := cvss_metrics.process_json_files [Loaded document_v31_and_v20] in
  (cvss_v3_files e = 2 /\ cvss_v2_files e = 0 /\ files_with_metrics e = 1)
  /\ (cvss_v3_files e' = 1 /\ cvss_v2_files e' = 1
      /\ files_with_metrics e' = 1).
Proof. repeat split; reflexivity. Qed.

(** C4.  A legacy document whose v3 base score is 0.0 resolves to N/A and
    is counted at N/A in the SeverityLevel counter, where a cna block with
    the same score is not counted. *)
Theorem C4_legacy_counts_undetermined :
  let zero := JFloat (FFin 0) in
  let legacy :=
    cvss_metrics.process_json_files [Loaded (legacy_v3_document zero)] in
  let cna :=
    cvss_metrics.process_json_files
      [Loaded (cna_document [JObj [("cvssV3_1", JObj [("baseScore", zero)])]])]
  in
  calculate_severity_from_score zero "v3" = Ok "N/A"
  /\ counter_of "SeverityLevel" legacy = [(KStr "N/A", 1)]
  /\ counter_of "SeverityLevel" cna = []
  /\ errors legacy = [] /\ errors cna = [].
Proof. repeat split; reflexivity. Qed.

(** ** Aggregator: documents that cannot be decoded *)

(** C3, as it holds.  A file that fails to decode is reported and counted
    in [total_files]; it is counted in nothing else. *)
Theorem C3_decode_failure_counted_in_total
  (normalize : option (json -> json)) (e : env) (f : file) (x : exn) :
  decode_failure f = Some x ->
  let e' := process_file normalize e f in
  errors e' = (errors e ++ [x])%list
  /\ total_files e' = total_files e + 1
  /\ files_processed e' = files_processed e
  /\ files_with_metrics e' = files_with_metrics e
  /\ cvss_v2_files e' = cvss_v2_files e
  /\ cvss_v3_files e' = cvss_v3_files e
  /\ frequency_counter e' = frequency_counter e
  /\ frequency_counter_v2 e' = frequency_counter_v2 e.
Proof.
  intros D. destruct f as [|data].
  - inversion D; subst. cbv zeta. repeat split; reflexivity.
  - destruct data; inversion D; subst; cbv zeta; repeat split; reflexivity.
Qed.

Lemma C3_witness :
  decode_failure (Loaded (JArr [])) = Some AttributeError
  /\ total_files (cvss_metrics.process_file initial (Loaded (JArr []))) = 1
  /\ files_processed (cvss_metrics.process_file initial (Loaded (JArr []))) = 0.
Proof.
  pose proof (C3_decode_failure_counted_in_total None initial
                (Loaded (JArr [])) AttributeError eq_refl) as T.
  cbv zeta in T. destruct T as (_ & T1 & T2 & _).
  split; [reflexivity | split; [exact T1 | exact T2]].
Defined.

(** C3, as stated, fails: the file is counted in [total_files]. *)
Lemma C3_counterexample :
  decode_failure Unreadable = Some LoadError
  /\ total_files (cvss_metrics.process_file initial Unreadable)
     <> total_files initial.
Proof. split; [reflexivity | discriminate]. Qed.

(** ** Aggregator: running statements *)

Open Scope stmt_scope.

Lemma bind_ok {A B} (m : M A) (k : A -> M B) e a e' :
  m e = (Ok a, e') -> bind m k e = k a e'.
Proof. unfold bind. now intros ->. Qed.

Lemma bind_raise {A B} (m : M A) (k : A -> M B) e x e' :
  m e = (Raise x, e') -> bind m k e = (Raise x, e').
Proof. unfold bind. now intros ->. Qed.

Section Preserves.

Variable I : env -> Prop.

Lemma preserves_ret {A} (a : A) : preserves I (ret a).
Proof. now intros e. Qed.

Lemma preserves_lift {A} (r : result A) : preserves I (lift r).
Proof. now intros e. Qed.

Lemma preserves_gets {A} (f : env -> A) : preserves I (gets f).
Proof. now intros e. Qed.

Lemma preserves_modify (f : env -> env) :
  (forall e, I e -> I (f e)) -> preserves I (modify f).
Proof. intros H e He. now apply H. Qed.

Lemma preserves_bind {A B} (m : M A) (k : A -> M B) :
  preserves I m -> (forall a, preserves I (k a)) -> preserves I (bind m k).
Proof.
  intros Hm Hk e He. unfold bind. specialize (Hm e He).
  destruct (m e) as [[a|x] e1]; simpl in *; auto. now apply Hk.
Qed.

Lemma preserves_for_ {A} (l : list A) (body : A -> M unit) :
  (forall x, preserves I (body x)) -> preserves I (for_ l body).
Proof.
  intros H. induction l as [|x r IH]; simpl.
  - apply preserves_ret.
  - apply preserves_bind; auto.
Qed.

Lemma preserves_count_in (name : string) (value : json) :
  (forall e c k, I e -> lookup name (frequency_counter e) = Some c ->
     hash value = Ok k ->
     I (set_frequency_counter
          (dict_set name (incr c k) (frequency_counter e)) e)) ->
  preserves I (count_in name value).
Proof.
  intros H e He. unfold count_in, bind, gets. simpl.
  destruct (lookup name (frequency_counter e)) as [c|] eqn:L; simpl; auto.
  unfold lift. destruct (hash value) as [k|x] eqn:E; simpl; auto.
Qed.

Lemma preserves_count_in_v2 (name : string) (value : json) :
  (forall e x, I e -> I (set_frequency_counter_v2 x e)) ->
  preserves I (count_in_v2 name value).
Proof.
  intros H e He. unfold count_in_v2, bind, gets. simpl.
  destruct (lookup name (frequency_counter_v2 e)) as [c|] eqn:L; simpl; auto.
  unfold lift. destruct (hash value) as [k|x] eqn:E; simpl; auto.
Qed.

End Preserves.

(** Decomposes a [preserves] goal along the statement; [leaf] closes the
    goals about counting and about assignments. *)
Ltac preserve leaf :=
  repeat first
    [ apply preserves_ret
    | apply preserves_lift
    | apply preserves_gets
    | solve [leaf]
    | apply preserves_for_; intros
    | match goal with
      | |- preserves _ (bind _ _) => apply preserves_bind; [ | intros ]
      | |- preserves _ (if ?b then _ else _) => destruct b
      | |- preserves _ (match ?x with _ => _ end) => destruct x
      | |- preserves _ (let (_, _) := ?x in _) => destruct x
      end ].

(** *** [has_metrics], once set, stays set through a tier *)

Ltac found_leaf :=
  first
    [ apply preserves_modify; intros ? ?; assumption
    | apply preserves_count_in; intros; assumption
    | apply preserves_count_in_v2; intros; assumption ].

Lemma found_process_block normalize (cvss_data : json) :
  preserves found (process_block normalize cvss_data).
Proof. unfold process_block. preserve found_leaf. Qed.

Lemma found_count_blocks normalize (metrics_list : json) (e : env) :
  found (snd (count_blocks normalize metrics_list e)).
Proof.
  unfold count_blocks.
  assert (P : preserves found
                (blocks <- lift (iter metrics_list) ;;
                 for_ blocks (process_block normalize))).
  { apply preserves_bind; [apply preserves_lift|]. intros blocks.
    apply preserves_for_. apply found_process_block. }
  apply (P (set_has_metrics true e)). reflexivity.
Qed.

Lemma found_adp_section normalize (adp : json) :
  preserves found (adp_section normalize adp).
Proof.
  unfold adp_section. apply preserves_bind; [apply preserves_lift|].
  intros m. destruct (truthy m); [|apply preserves_ret].
  intros e _. apply found_count_blocks.
Qed.

Lemma found_contributes normalize (adp : json) (e : env) :
  contributes adp = true -> found (snd (adp_section normalize adp e)).
Proof.
  unfold contributes, adp_section. intros C.
  destruct (get adp "metrics" (JArr [])) as [m|x] eqn:G; [|discriminate].
  unfold bind, lift. rewrite C. apply found_count_blocks.
Qed.

Lemma found_adp_loop normalize (adps : list json) (e e' : env) :
  existsb contributes adps = true \/ found e ->
  for_ adps (adp_section normalize) e = (Ok tt, e') -> found e'.
Proof.
  revert e. induction adps as [|adp r IH]; intros e H R; simpl in *.
  - inversion R; subst. destruct H; [discriminate | assumption].
  - unfold bind in R.
    destruct (adp_section normalize adp e) as [[u|x] e1] eqn:E;
      [|discriminate].
    apply (IH e1); auto.
    assert (E1 : e1 = snd (adp_section normalize adp e)) by now rewrite E.
    destruct H as [H|H].
    + apply orb_true_iff in H. destruct H as [H|H]; auto.
      right. rewrite E1. now apply found_contributes.
    + right. rewrite E1. now apply found_adp_section.
Qed.

Lemma adp_tier_skipped normalize (data : json) (e : env) :
  found e -> adp_tier normalize data e = (Ok tt, e).
Proof. unfold found, adp_tier, bind, gets. now intros ->. Qed.

Lemma legacy_tier_skipped (data : json) (e : env) :
  found e -> legacy_tier data e = (Ok tt, e).
Proof. unfold found, legacy_tier, bind, gets. now intros ->. Qed.

(** ** Container Locator *)

Lemma winning_tier_primary (data m : json) :
  winning_tier data = Some (primary, m) ->
  cna_metrics_of data = Ok m /\ truthy m = true.
Proof.
  unfold winning_tier.
  destruct (cna_metrics_of data) as [c|x]; [|discriminate].
  destruct (truthy c) eqn:T.
  - intros H. inversion H; subst. auto.
  - destruct (adp_list_of data) as [a|x]; [|discriminate].
    destruct (iter a) as [l|x]; [|discriminate].
    destruct (existsb contributes l); discriminate.
Qed.

Lemma winning_tier_secondary (data a : json) :
  winning_tier data = Some (secondary, a) ->
  exists m adps,
    cna_metrics_of data = Ok m /\ truthy m = false
    /\ adp_list_of data = Ok a /\ iter a = Ok adps
    /\ existsb contributes adps = true.
Proof.
  unfold winning_tier.
  destruct (cna_metrics_of data) as [c|x]; [|discriminate].
  destruct (truthy c) eqn:T; [discriminate|].
  destruct (adp_list_of data) as [a'|x]; [|discriminate].
  destruct (iter a') as [l|x] eqn:It; [|discriminate].
  destruct (existsb contributes l) eqn:Ex; [|discriminate].
  intros H. inversion H; subst. exists c, l. auto.
Qed.

Lemma try_body_loaded normalize (data : json) (e : env) :
  try_body normalize (Loaded data) e
  = tiers normalize data (set_cvss_version None (set_has_metrics false e)).
Proof. reflexivity. Qed.

Lemma tiers_primary normalize (data m : json) (e : env) :
  cna_metrics_of data = Ok m -> truthy m = true ->
  tiers normalize data e = (count_blocks normalize m ;; count_file) e.
Proof.
  intros C T. unfold tiers.
  assert (R : cna_tier normalize data e = count_blocks normalize m e).
  { unfold cna_tier, bind, lift. now rewrite C, T. }
  pose proof (found_count_blocks normalize m e) as F.
  destruct (count_blocks normalize m e) as [[u|x] e1] eqn:E.
  - rewrite (bind_ok _ _ _ _ _ R), (bind_ok _ _ _ _ _ E).
    rewrite (bind_ok _ _ _ _ _ (adp_tier_skipped normalize data e1 F)).
    now rewrite (bind_ok _ _ _ _ _ (legacy_tier_skipped data e1 F)).
  - now rewrite (bind_raise _ _ _ _ _ R), (bind_raise _ _ _ _ _ E).
Qed.

Lemma tiers_secondary normalize (data m a : json) (adps : list json) e :
  cna_metrics_of data = Ok m -> truthy m = false ->
  adp_list_of data = Ok a -> iter a = Ok adps ->
  existsb contributes adps = true ->
  has_metrics e = false ->
  tiers normalize data e = (for_ adps (adp_section normalize) ;; count_file) e.
Proof.
  intros C T A It Ex H. unfold tiers.
  assert (R : cna_tier normalize data e = (Ok tt, e)).
  { unfold cna_tier, bind, lift. now rewrite C, T. }
  rewrite (bind_ok _ _ _ _ _ R).
  assert (R' : adp_tier normalize data e
               = for_ adps (adp_section normalize) e).
  { unfold adp_tier, bind, gets, lift. now rewrite H, A, It. }
  destruct (for_ adps (adp_section normalize) e) as [[u|x] e1] eqn:E.
  - destruct u.
    assert (F : found e1) by (eapply found_adp_loop; eauto).
    rewrite (bind_ok _ _ _ _ _ R'), (bind_ok _ _ _ _ _ E).
    now rewrite (bind_ok _ _ _ _ _ (legacy_tier_skipped data e1 F)).
  - now rewrite (bind_raise _ _ _ _ _ R'), (bind_raise _ _ _ _ _ E).
Qed.

(** C6.  Two documents with the same winning tier are counted alike:
    when the cna metrics list is non-empty, nothing of the adp sections or
    of the legacy [impact] object is counted, and when an adp section has
    a non-empty metrics list (the cna list being empty), nothing of the
    legacy object is. *)
Theorem C6_first_tier_wins (normalize : option (json -> json))
  (data data' : json) (w : tier * json) (e : env) :
  winning_tier data = Some w ->
  winning_tier data' = Some w ->
  process_file normalize e (Loaded data)
  = process_file normalize e (Loaded data').
Proof.
  intros W W'. unfold process_file. cbv zeta.
  rewrite !try_body_loaded.
  destruct w as [[|] x].
  - apply winning_tier_primary in W, W'.
    destruct W as [C T], W' as [C' _].
    now rewrite (tiers_primary _ _ _ _ C T), (tiers_primary _ _ _ _ C' T).
  - apply winning_tier_secondary in W, W'.
    destruct W as (m & adps & C & T & A & It & Ex).
    destruct W' as (m' & adps' & C' & T' & A' & It' & Ex').
    rewrite It in It'. inversion It'; subst adps'.
    rewrite (tiers_secondary normalize data m x adps _ C T A It Ex);
      [|reflexivity].
    rewrite (tiers_secondary normalize data' m' x adps _ C' T' A' It Ex);
      [|reflexivity].
    reflexivity.
Qed.

Lemma C6_witness :
  process_file None initial (Loaded document_all_tiers)
  = process_file None initial (Loaded (cna_document [block_v31])).
Proof.
  apply (C6_first_tier_wins None document_all_tiers
           (cna_document [block_v31]) (primary, JArr [block_v31]) initial);
    reflexivity.
Defined.

(** ** Blocks of no known version *)

Lemma extract_metrics_unknown (cvss_data : json) :
  unknown_version cvss_data -> extract_metrics cvss_data = Ok [].
Proof.
  intros (H31 & H30 & H20). unfold extract_metrics.
  now rewrite H31, H30, H20.
Qed.

Lemma process_block_unknown normalize (cvss_data : json) (e : env) :
  unknown_version cvss_data ->
  process_block normalize cvss_data e = (Ok tt, e).
Proof.
  intros U. unfold process_block, bind, lift.
  now rewrite (extract_metrics_unknown _ U).
Qed.

Lemma for_unknown normalize (blocks : list json) (e : env) :
  Forall unknown_version blocks ->
  for_ blocks (process_block normalize) e = (Ok tt, e).
Proof.
  induction 1 as [|b r U _ IH]; simpl; auto.
  now rewrite (bind_ok _ _ _ _ _ (process_block_unknown normalize b e U)).
Qed.

(** C10.  A document whose cna metrics list is non-empty and holds only
    blocks of no known version: every block decodes to the empty map, no
    counter of values or of versions changes, no error is reported, and
    the document is counted in [files_with_metrics], whatever its adp
    sections and its [impact] object hold. *)
Theorem C10_unknown_blocks_still_count
  (normalize : option (json -> json)) (e : env) (data : json)
  (blocks : list json) :
  cna_metrics_of data = Ok (JArr blocks) ->
  blocks <> [] ->
  Forall unknown_version blocks ->
  let e' := process_file normalize e (Loaded data) in
  Forall (fun b => extract_metrics b = Ok []) blocks
  /\ frequency_counter e' = frequency_counter e
  /\ frequency_counter_v2 e' = frequency_counter_v2 e
  /\ cvss_v2_files e' = cvss_v2_files e
  /\ cvss_v3_files e' = cvss_v3_files e
  /\ errors e' = errors e
  /\ files_with_metrics e' = files_with_metrics e + 1
  /\ files_processed e' = files_processed e + 1
  /\ total_files e' = total_files e + 1.
Proof.
  intros C N U. cbv zeta. split.
  { eapply Forall_impl; [|exact U]. apply extract_metrics_unknown. }
  assert (T : truthy (JArr blocks) = true).
  { destruct blocks; [congruence | reflexivity]. }
  unfold process_file. cbv zeta.
  rewrite try_body_loaded, (tiers_primary _ _ _ _ C T).
  set (e0 := set_cvss_version None
                (set_has_metrics false
                   (set_total_files (total_files e + 1) e))).
  assert (R : count_blocks normalize (JArr blocks) e0
              = (Ok tt, set_has_metrics true e0)).
  { unfold count_blocks, bind, modify, lift. simpl. now apply for_unknown. }
  rewrite (bind_ok _ _ _ _ _ R).
  repeat split; reflexivity.
Qed.

Lemma C10_witness :
  let e' := process_file None initial (Loaded document_unknown_blocks) in
  frequency_counter e' = frequency_counter initial
  /\ files_with_metrics e' = 1.
Proof.
  pose proof (C10_unknown_blocks_still_count None initial
    document_unknown_blocks
    [ JObj [ ("cvssV4_0", JObj []) ]; JObj [ ("other", JStr "x") ] ]) as T.
  cbv zeta in T.
  destruct T as (_ & T1 & _ & _ & _ & _ & T2 & _).
  - reflexivity.
  - discriminate.
  - repeat constructor.
  - cbv zeta. split; [exact T1 | exact T2].
Defined.

(** ** Counted impact values *)

Lemma incr_counted (c : Counter) (k k' : key) :
  In k' (counted (incr c k)) -> k' = k \/ In k' (counted c).
Proof.
  induction c as [|[k0 n] r IH]; simpl.
  - intros [H|[]]; auto.
  - destruct (key_eqb k k0); simpl; intros [H|H]; auto.
    destruct (IH H); auto.
Qed.


Lemma In_in_list (v : string) (l : list string) :
  in_list v l = true -> In v l.
Proof.
  unfold in_list. intros H. apply existsb_exists in H.
  destruct H as (x & H & E). apply String.eqb_eq in E. now subst.
Qed.















(** ** Vector Grammar Parser: further properties *)


Lemma keys_dict_set {V} (k : string) (v : V) (d : list (string * V)) :
  In k (keys d) -> keys (dict_set k v d) = keys d.
Proof.
  unfold keys. induction d as [|[k' v'] r IH]; simpl; [tauto|].
  destruct (String.eqb_spec k k') as [->|N]; simpl; auto.
  intros [E|H]; [congruence|]. now rewrite IH.
Qed.

Lemma dict_set_values (P : json -> Prop) (k : string) (v : json) (d : dict) :
  P v -> Forall (fun kv => P (snd kv)) d ->
  Forall (fun kv => P (snd kv)) (dict_set k v d).
Proof.
  intros Hv. induction 1 as [|[k' v'] r H F IH]; simpl.
  - constructor; simpl; auto.
  - destruct (k =? k'); constructor; simpl; auto.
Qed.

Lemma grammar_map_set (initial m : dict) (name value : string) :
  grammar_map initial m -> In name (keys initial) ->
  name <> "baseSeverity" ->
  grammar_map initial (dict_set name (JStr value) m).
Proof.
  intros (K & B & F) I N. repeat split.
  - rewrite keys_dict_set; [assumption | now rewrite K].
  - rewrite lookup_dict_set_other; auto.
  - apply (dict_set_values (fun x => exists t, x = JStr t)); eauto.
Qed.

Lemma grammar_map_initial_v3 : grammar_map v3_initial v3_initial.
Proof. repeat split. repeat constructor; simpl; eauto. Qed.

Lemma grammar_map_initial_v2 : grammar_map v2_initial v2_initial.
Proof. repeat split. repeat constructor; simpl; eauto. Qed.

Ltac grammar_set :=
  apply grammar_map_set;
  [ assumption | simpl; tauto | discriminate ].

Lemma v3_part_grammar_map (m m' : dict) (part : string) :
  grammar_map v3_initial m -> v3_part m part = Ok m' ->
  grammar_map v3_initial m'.
Proof.
  intros G. unfold v3_part.
  destruct (has_char ":" part); [|intros E; inversion E; subst; exact G].
  destruct (unpack2 (split ":" part)) as [[k v]|x]; simpl; [|discriminate].
  case_keys; intros E; inversion E; subst; try assumption; grammar_set.
Qed.

Lemma v2_part_grammar_map (m m' : dict) (part : string) :
  grammar_map v2_initial m -> v2_part m part = Ok m' ->
  grammar_map v2_initial m'.
Proof.
  intros G. unfold v2_part.
  destruct (has_char ":" part); [|intros E; inversion E; subst; exact G].
  destruct (unpack2 (split ":" part)) as [[k v]|x]; simpl; [|discriminate].
  case_keys; intros E; inversion E; subst; try assumption; grammar_set.
Qed.

Lemma for_each_invariant {A S} (body : S -> A -> result S) (P : S -> Prop) :
  (forall s x s', P s -> body s x = Ok s' -> P s') ->
  forall l s s', P s -> for_each body l s = Ok s' -> P s'.
Proof.
  intros H l. induction l as [|x r IH]; simpl; intros s s' Ps E.
  - inversion E; subst; assumption.
  - destruct (body s x) as [s1|e] eqn:B; simpl in E; [|discriminate].
    apply (IH s1 s'); eauto.
Qed.

Lemma parsers_grammar_map (vector_string : json) :
  (forall m, parse_vector_string vector_string = Ok m ->
             grammar_map v3_initial m)
  /\ (forall m, parse_vector_string_v2 vector_string = Ok m ->
                grammar_map v2_initial m).
Proof.
  unfold parse_vector_string, parse_vector_string_v2. split; intros m;
    (destruct (negb (truthy vector_string));
     [ intros E; inversion E; subst;
       first [apply grammar_map_initial_v3 | apply grammar_map_initial_v2]
     | destruct (split_vector vector_string) as [parts|x]; simpl;
       [|discriminate] ]).
  - apply (for_each_invariant v3_part (grammar_map v3_initial)).
    + intros s x s' G E. eapply v3_part_grammar_map; eauto.
    + apply grammar_map_initial_v3.
  - apply (for_each_invariant v2_part (grammar_map v2_initial)).
    + intros s x s' G E. eapply v2_part_grammar_map; eauto.
    + apply grammar_map_initial_v2.
Qed.

(** X2.  Whatever value they are given, the parsers, when they return,
    return a map with exactly the dimensions of their grammar, in the
    order of the initial map, whose values are all strings and whose
    [baseSeverity] is N/A. *)
Theorem X2_parsers_return_grammar_maps (vector_string : json) :
  (forall m, parse_vector_string vector_string = Ok m ->
             grammar_map v3_initial m)
  /\ (forall m, parse_vector_string_v2 vector_string = Ok m ->
                grammar_map v2_initial m).
Proof. exact (parsers_grammar_map vector_string). Qed.

Lemma X2_witness :
  exists m,
    parse_vector_string (JStr "AV:N/C:H/zz") = Ok m
    /\ keys m = keys v3_initial
    /\ lookup "baseSeverity" m = Some (JStr "N/A").
Proof.
  eexists. split; [reflexivity|].
  destruct (proj1 (X2_parsers_return_grammar_maps (JStr "AV:N/C:H/zz"))
              _ eq_refl) as (K & B & _).
  split; [exact K | exact B].
Defined.

Lemma well_or_ill (l : list string) :
  Forall well_formed_part l \/ Exists ill_formed_part l.
Proof.
  induction l as [|p r [IH|IH]]; auto.
  destruct (part_formed p); auto.
Qed.

Lemma well_not_ill (l : list string) :
  Forall well_formed_part l -> Exists ill_formed_part l -> False.
Proof.
  induction 1 as [|p r W _ IH]; intros E; inversion E; subst; auto.
  unfold well_formed_part, ill_formed_part in *. lia.
Qed.

(** X1.  On a string, each parser returns exactly when every segment
    between slashes holds at most one colon, and raises [ValueError]
    exactly when some segment holds two colons or more. *)
Theorem X1_parsers_return_iff (s : string) :
  ((exists m, parse_vector_string (JStr s) = Ok m)
   <-> Forall well_formed_part (split "/" s))
  /\ (parse_vector_string (JStr s) = Raise ValueError
      <-> Exists ill_formed_part (split "/" s))
  /\ ((exists m, parse_vector_string_v2 (JStr s) = Ok m)
      <-> Forall well_formed_part (split "/" s))
  /\ (parse_vector_string_v2 (JStr s) = Raise ValueError
      <-> Exists ill_formed_part (split "/" s)).
Proof.
  pose proof (parse_vector_string_returns s) as R3.
  pose proof (parse_vector_string_v2_returns s) as R2.
  pose proof (parse_vector_string_raises s) as X.
  destruct (well_or_ill (split "/" s)) as [W|I].
  - destruct (R3 W) as (m3 & E3 & _). destruct (R2 W) as (m2 & E2 & _).
    repeat split; intros H; eauto; try (rewrite E3 in H; discriminate);
      try (rewrite E2 in H; discriminate);
      exfalso; eapply well_not_ill; eauto.
  - destruct (X I) as [E3 E2].
    repeat split; intros H; auto;
      try (destruct H as (m & H); rewrite ?E3, ?E2 in H; discriminate);
      exfalso; eapply well_not_ill; eauto.
Qed.

Lemma X1_witness :
  exists m, parse_vector_string (JStr "C:H/x") = Ok m.
Proof.
  apply (proj2 (proj1 (X1_parsers_return_iff "C:H/x"))).
  repeat constructor; unfold well_formed_part; simpl; lia.
Defined.

Lemma split_not_nil (c : ascii) (s : string) : split c s <> [].
Proof.
  intros E. pose proof (split_length c s) as L. rewrite E in L. discriminate.
Qed.

Lemma split_app_sep (c : ascii) (a b : string) :
  split c (a ++ String c b) = (split c a ++ split c b)%list.
Proof.
  induction a as [|x r IH]; simpl.
  - now rewrite Ascii.eqb_refl.
  - destruct (Ascii.eqb x c); simpl; [now rewrite IH|].
    rewrite IH. destruct (split c r) as [|h t] eqn:E; [|reflexivity].
    now apply split_not_nil in E.
Qed.

Lemma split_free (c : ascii) (s : string) : free_of c s -> split c s = [s].
Proof.
  unfold free_of. induction s as [|x r IH]; simpl; auto.
  destruct (Ascii.eqb x c); simpl; [discriminate|].
  intros H. now rewrite (IH H).
Qed.

Lemma for_each_app {A S} (body : S -> A -> result S) (l : list A) (x : A)
  (s : S) :
  for_each body (l ++ [x]) s = rbind (for_each body l s) (fun s' => body s' x).
Proof.
  revert s. induction l as [|y r IH]; intros s; simpl.
  - destruct (body s x); reflexivity.
  - destruct (body s y); simpl; auto.
Qed.

Lemma parse_vector_string_fold (s : string) :
  parse_vector_string (JStr s) = for_each v3_part (split "/" s) v3_initial.
Proof. destruct s; reflexivity. Qed.

Lemma parse_vector_string_v2_fold (s : string) :
  parse_vector_string_v2 (JStr s) = for_each v2_part (split "/" s) v2_initial.
Proof. destruct s; reflexivity. Qed.

Lemma parsers_extend (s part : string) :
  free_of "/" part ->
  parse_vector_string (JStr (s ++ "/" ++ part))
  = rbind (parse_vector_string (JStr s)) (fun m => v3_part m part)
  /\ parse_vector_string_v2 (JStr (s ++ "/" ++ part))
     = rbind (parse_vector_string_v2 (JStr s)) (fun m => v2_part m part).
Proof.
  intros F.
  rewrite !parse_vector_string_fold, !parse_vector_string_v2_fold.
  change (s ++ "/" ++ part) with (s ++ String "/" part).
  rewrite split_app_sep, (split_free _ _ F).
  split; apply for_each_app.
Qed.

Lemma has_char_app_sep (c : ascii) (a b : string) :
  has_char c (a ++ String c b) = true.
Proof.
  induction a as [|x r IH]; simpl.
  - now rewrite Ascii.eqb_refl.
  - rewrite IH. apply orb_true_r.
Qed.

Lemma key_segment (k v : string) :
  free_of ":" k -> free_of ":" v ->
  has_char ":" (k ++ ":" ++ v) = true
  /\ unpack2 (split ":" (k ++ ":" ++ v)) = Ok (k, v).
Proof.
  intros Fk Fv. change (k ++ ":" ++ v) with (k ++ String ":" v). split.
  - apply has_char_app_sep.
  - now rewrite split_app_sep, (split_free _ _ Fk), (split_free _ _ Fv).
Qed.

Lemma has_char_app (c : ascii) (a b : string) :
  has_char c (a ++ b) = has_char c a || has_char c b.
Proof.
  induction a as [|x r IH]; simpl; auto.
  rewrite IH. apply orb_assoc.
Qed.

Lemma free_of_app (c : ascii) (a b : string) :
  free_of c a -> free_of c b -> Ascii.eqb ":" c = false ->
  free_of c (a ++ ":" ++ b).
Proof.
  unfold free_of. intros Fa Fb N.
  rewrite has_char_app, Fa.
  change (has_char c (":" ++ b)) with (Ascii.eqb ":" c || has_char c b).
  now rewrite N, Fb.
Qed.

Ltac in_table I :=
  simpl in I;
  repeat match goal with
         | H : _ \/ _ |- _ => destruct H
         | H : False |- _ => destruct H
         | H : (_, _) = (_, _) |- _ => inversion H; clear H; subst
         end.

Lemma v3_part_key (m : dict) (k name v : string) :
  In (k, name) v3_keys -> free_of ":" v ->
  v3_part m (k ++ ":" ++ v) = Ok (dict_set name (JStr v) m)
  /\ free_of "/" k.
Proof.
  intros I Fv. in_table I;
    (split; [|reflexivity]); unfold v3_part;
    match goal with
    | |- context [has_char ":" (?k ++ ":" ++ v)] =>
        destruct (key_segment k v eq_refl Fv) as [H U]; rewrite H, U
    end; reflexivity.
Qed.

Lemma v2_part_key (m : dict) (k name v : string) :
  In (k, name) v2_keys -> free_of ":" v ->
  v2_part m (k ++ ":" ++ v) = Ok (dict_set name (JStr v) m)
  /\ free_of "/" k.
Proof.
  intros I Fv. in_table I;
    (split; [|reflexivity]); unfold v2_part;
    match goal with
    | |- context [has_char ":" (?k ++ ":" ++ v)] =>
        destruct (key_segment k v eq_refl Fv) as [H U]; rewrite H, U
    end; reflexivity.
Qed.

(** X3.  A segment [k:v] with a recognised key [k] sets the dimension of
    [k] to [v], overwriting what earlier segments gave it: the last
    occurrence of a key wins. *)
Theorem X3_last_occurrence_wins (s k name v : string) (m : dict) :
  free_of "/" v -> free_of ":" v ->
  (In (k, name) v3_keys -> parse_vector_string (JStr s) = Ok m ->
   parse_vector_string (JStr (s ++ "/" ++ k ++ ":" ++ v))
   = Ok (dict_set name (JStr v) m))
  /\ (In (k, name) v2_keys -> parse_vector_string_v2 (JStr s) = Ok m ->
      parse_vector_string_v2 (JStr (s ++ "/" ++ k ++ ":" ++ v))
      = Ok (dict_set name (JStr v) m)).
Proof.
  intros Fs Fc. split; intros I E.
  - destruct (v3_part_key m k name v I Fc) as [P Fk].
    rewrite (proj1 (parsers_extend s (k ++ ":" ++ v)
                      (free_of_app _ _ _ Fk Fs eq_refl))).
    now rewrite E.
  - destruct (v2_part_key m k name v I Fc) as [P Fk].
    rewrite (proj2 (parsers_extend s (k ++ ":" ++ v)
                      (free_of_app _ _ _ Fk Fs eq_refl))).
    now rewrite E.
Qed.

Lemma X3_witness :
  parse_vector_string (JStr ("C:L/AV:N" ++ "/" ++ "C" ++ ":" ++ "H"))
  = Ok (dict_set "Confidentiality" (JStr "H")
          (dict_set "Attack Vector" (JStr "N")
             (dict_set "Confidentiality" (JStr "L") v3_initial))).
Proof.
  apply (proj1 (X3_last_occurrence_wins "C:L/AV:N" "C" "Confidentiality" "H"
                  _ eq_refl eq_refl)).
  - simpl. tauto.
  - reflexivity.
Defined.

Lemma rbind_ok {A} (r : result A) : rbind r (fun m => Ok m) = r.
Proof. now destruct r. Qed.

Lemma eqb_not_in (k : string) (table : list (string * string)) (a : string) :
  ~ In k (map fst table) -> In a (map fst table) -> (k =? a) = false.
Proof. intros N I. apply String.eqb_neq. congruence. Qed.

(** X4.  A segment without a colon, and a segment [k:v] whose key [k] is
    not one of the grammar (keys are case-sensitive), change nothing:
    the parse is that of the string without the segment. *)
Theorem X4_other_segments_ignored (s part : string) :
  free_of "/" part ->
  (free_of ":" part
   \/ exists k v, part = k ++ ":" ++ v /\ free_of ":" k /\ free_of ":" v
                  /\ ~ In k (map fst v3_keys)) ->
  parse_vector_string (JStr (s ++ "/" ++ part))
  = parse_vector_string (JStr s).
Proof.
  intros F H. rewrite (proj1 (parsers_extend s part F)).
  rewrite <- (rbind_ok (parse_vector_string (JStr s))) at 2.
  destruct (parse_vector_string (JStr s)) as [m|x]; simpl; auto.
  unfold v3_part. destruct H as [H|(k & v & -> & Fk & Fv & N)].
  - unfold free_of in H. now rewrite H.
  - destruct (key_segment k v Fk Fv) as [H U]. rewrite H, U. simpl.
    rewrite !(eqb_not_in k v3_keys) by (assumption || (simpl; tauto)).
    reflexivity.
Qed.

Lemma X4_witness :
  parse_vector_string (JStr ("C:H" ++ "/" ++ "c:L"))
  = parse_vector_string (JStr "C:H").
Proof.
  apply (X4_other_segments_ignored "C:H" "c:L" eq_refl).
  right. exists "c", "L". repeat split; try reflexivity.
  simpl. intuition discriminate.
Defined.

(** ** Field Decoder and Severity Resolver: further properties *)

Lemma has_key_lookup {V} (k : string) (d : list (string * V)) :
  has_key k d = match lookup k d with Some _ => true | None => false end.
Proof. reflexivity. Qed.

Ltac version_cases H :=
  unfold version_of in H;
  repeat match type of H with
         | context [lookup ?k ?b] =>
             let E := fresh "E" in destruct (lookup k b) eqn:E
         end;
  try discriminate; inversion H; subst; clear H.

Ltac decode :=
  unfold extract_metrics, extract_severity_from_cvss, contains, getitem;
  rewrite ?has_key_lookup;
  repeat match goal with
         | E : lookup ?k ?b = _ |- context [lookup ?k ?b] => rewrite E
         end;
  cbn [rbind].

(** X5.  A block is decoded by the first version key it has, in the
    order cvssV3_1, cvssV3_0, cvssV2_0: metrics and severity depend on
    that key and its value only, and a block with none of the keys gives
    the empty map and N/A. *)
Theorem X5_first_version_key_wins (block block' : dict) :
  version_of block = version_of block' ->
  extract_metrics (JObj block) = extract_metrics (JObj block')
  /\ extract_severity_from_cvss (JObj block)
     = extract_severity_from_cvss (JObj block')
  /\ (version_of block = None ->
      extract_metrics (JObj block) = Ok []
      /\ extract_severity_from_cvss (JObj block) = Ok "N/A").
Proof.
  intros H. split; [|split].
  - version_cases H; decode; reflexivity.
  - version_cases H; decode; reflexivity.
  - intros N. version_cases N. split; decode; reflexivity.
Qed.

Lemma X5_witness :
  extract_metrics
    (JObj [ ("cvssV2_0", JObj [ ("vectorString", JStr "C:P") ]);
            ("cvssV3_1", JObj [ ("vectorString", JStr "C:H") ]) ])
  = extract_metrics
      (JObj [ ("cvssV3_1", JObj [ ("vectorString", JStr "C:H") ]) ]).
Proof.
  apply (X5_first_version_key_wins
           [ ("cvssV2_0", JObj [ ("vectorString", JStr "C:P") ]);
             ("cvssV3_1", JObj [ ("vectorString", JStr "C:H") ]) ]
           [ ("cvssV3_1", JObj [ ("vectorString", JStr "C:H") ]) ]).
  reflexivity.
Defined.


Lemma version_of_keys (block : dict) (version : string) (cvss : json) :
  version_of block = Some (version, cvss) ->
  In version ["cvssV3_1"; "cvssV3_0"; "cvssV2_0"].
Proof. intros H. version_cases H; simpl; tauto. Qed.

(** X6.  When the version value of a block carries a non-empty vector
    string, the metrics are those of the vector string alone: the direct
    fields of the block are not read, so that the [baseSeverity] entry of
    the metrics is N/A whatever label the block carries. *)
Theorem X6_vector_string_first (block cvss : dict) (version s : string) :
  version_of block = Some (version, JObj cvss) ->
  lookup "vectorString" cvss = Some (JStr s) ->
  s <> "" ->
  extract_metrics (JObj block) = parser_of version (JStr s)
  /\ forall m, extract_metrics (JObj block) = Ok m ->
               lookup "baseSeverity" m = Some (JStr "N/A").
Proof.
  intros V L N.
  assert (T : truthy (JStr s) = true).
  { simpl. apply String.eqb_neq in N. now rewrite N. }
  assert (E : extract_metrics (JObj block) = parser_of version (JStr s)).
  { version_cases V; decode; unfold get; rewrite L; cbn [rbind]; rewrite T;
      reflexivity. }
  split; [exact E|]. intros m. rewrite E.
  pose proof (version_of_keys _ _ _ V) as K. simpl in K.
  destruct K as [<-|[<-|[<-|[]]]]; unfold parser_of; simpl; intros P.
  - now destruct (proj1 (parsers_grammar_map (JStr s)) m P) as (_ & B & _).
  - now destruct (proj1 (parsers_grammar_map (JStr s)) m P) as (_ & B & _).
  - now destruct (proj2 (parsers_grammar_map (JStr s)) m P) as (_ & B & _).
Qed.

Lemma X6_witness :
  exists m,
    extract_metrics block_v31 = Ok m
    /\ lookup "baseSeverity" m = Some (JStr "N/A").
Proof.
  eexists. split; [reflexivity|].
  refine (proj2 (X6_vector_string_first
                   [ ("cvssV3_1",
                      JObj [ ("vectorString",
                              JStr "CVSS:3.1/AV:N/AC:L/PR:N/UI:N/S:U/C:H/I:H/A:H");
                             ("baseScore", score_9_8);
                             ("baseSeverity", JStr "CRITICAL") ]) ]
                   _ "cvssV3_1" _ eq_refl eq_refl _) _ eq_refl).
  discriminate.
Defined.

Lemma v3_fields_keys (cvss : json) (m : dict) :
  v3_fields cvss = Ok m -> keys m = keys v3_initial.
Proof.
  destruct cvss; try discriminate. intros E. inversion E. reflexivity.
Qed.

Lemma v2_fields_keys (cvss : json) (m : dict) :
  v2_fields cvss = Ok m -> keys m = keys v2_initial.
Proof.
  destruct cvss; try discriminate. intros E. inversion E. reflexivity.
Qed.

Ltac rbind_cases E :=
  repeat match type of E with
         | rbind ?r _ = _ =>
             let a := fresh "a" in
             let R := fresh "R" in
             destruct r as [a|] eqn:R; cbn [rbind] in E; [|discriminate]
         | (if ?b then _ else _) = _ =>
             let B := fresh "B" in destruct b eqn:B
         end.

Lemma extract_metrics_keys (cvss_data : json) (m : dict) :
  extract_metrics cvss_data = Ok m ->
  m = [] \/ keys m = keys v3_initial \/ keys m = keys v2_initial.
Proof.
  unfold extract_metrics. intros E. rbind_cases E;
    try (inversion E; subst; now left);
    try (right; left;
         first [ now apply (proj1 (parsers_grammar_map _) m E)
               | eapply v3_fields_keys; eassumption ]);
    right; right;
    first [ now apply (proj2 (parsers_grammar_map _) m E)
          | eapply v2_fields_keys; eassumption ].
Qed.

(** X7.  Whatever value a block is, [extract_metrics], when it returns,
    returns the empty map or a map with exactly the dimensions of the v3
    grammar or exactly those of the v2 grammar. *)
Theorem X7_extract_metrics_complete (cvss_data : json) (m : dict) :
  extract_metrics cvss_data = Ok m ->
  m = [] \/ keys m = keys v3_initial \/ keys m = keys v2_initial.
Proof. exact (extract_metrics_keys cvss_data m). Qed.

Lemma X7_witness :
  keys [ ("Confidentiality", JStr "PARTIAL"); ("Integrity", JStr "N/A");
         ("Availability", JStr "N/A"); ("Attack Vector", JStr "N/A");
         ("Attack Complexity", JStr "N/A"); ("Authentication", JStr "N/A");
         ("baseSeverity", JStr "N/A") ]
  = keys v2_initial.
Proof.
  destruct (X7_extract_metrics_complete
              (JObj [ ("cvssV2_0",
                       JObj [ ("confidentialityImpact", JStr "PARTIAL") ]) ])
              _ eq_refl) as [H|[H|H]].
  - discriminate H.
  - discriminate H.
  - exact H.
Defined.

(** *** Severity labels *)

Lemma calculate_severity_labels (base_score : json) (version s : string) :
  calculate_severity_from_score base_score version = Ok s ->
  In s severity_labels.
Proof.
  unfold calculate_severity_from_score. intros E.
  destruct (version =? "v3"); rbind_cases E; inversion E; simpl; tauto.
Qed.

Lemma calculate_severity_v2_not_critical (base_score : json) :
  calculate_severity_from_score base_score "v2" <> Ok "Critical".
Proof.
  unfold calculate_severity_from_score. simpl String.eqb. cbv iota.
  intros E. rbind_cases E; discriminate.
Qed.

Lemma severity_v3_labels (cvss : json) (s : string) :
  severity_v3 cvss = Ok s -> In s severity_labels.
Proof.
  unfold severity_v3. intros E. cbv zeta in E. rbind_cases E;
    try (inversion E; simpl; tauto);
    eapply calculate_severity_labels; eassumption.
Qed.

Lemma extract_severity_labels (cvss_data : json) (s : string) :
  extract_severity_from_cvss cvss_data = Ok s -> In s severity_labels.
Proof.
  unfold extract_severity_from_cvss. intros E. cbv zeta in E.
  rbind_cases E;
    try (inversion E; simpl; tauto);
    first [ eapply severity_v3_labels; eassumption
          | eapply calculate_severity_labels; eassumption ].
Qed.

(** X8.  Whatever value a block is, [extract_severity_from_cvss], when
    it returns, returns one of Critical, High, Medium, Low, N/A. *)
Theorem X8_severity_is_a_label (cvss_data : json) (s : string) :
  extract_severity_from_cvss cvss_data = Ok s -> In s severity_labels.
Proof. exact (extract_severity_labels cvss_data s). Qed.

Lemma X8_witness : In "Critical" severity_labels.
Proof.
  apply (X8_severity_is_a_label block_v31 "Critical"). reflexivity.
Defined.

(** X9.  A block decoded as v2.0 never resolves to Critical, and its
    severity depends on its [baseScore] only: a [baseSeverity] label in a
    v2.0 block is not read. *)
Theorem X9_v2_blocks_use_score_only (block block' cvss cvss' : dict) :
  version_of block = Some ("cvssV2_0", JObj cvss) ->
  version_of block' = Some ("cvssV2_0", JObj cvss') ->
  lookup "baseScore" cvss = lookup "baseScore" cvss' ->
  extract_severity_from_cvss (JObj block)
  = extract_severity_from_cvss (JObj block')
  /\ extract_severity_from_cvss (JObj block) <> Ok "Critical".
Proof.
  intros V V' S.
  assert (E : forall b c, version_of b = Some ("cvssV2_0", JObj c) ->
            extract_severity_from_cvss (JObj b)
            = match lookup "baseScore" c with
              | Some x =>
                  if negb (is_none x)
                  then calculate_severity_from_score x "v2" else Ok "N/A"
              | None => Ok "N/A"
              end).
  { intros b c H. version_cases H. decode. unfold get.
    destruct (lookup "baseScore" c); reflexivity. }
  rewrite (E _ _ V), (E _ _ V'), S. split; [reflexivity|].
  destruct (lookup "baseScore" cvss') as [x|]; [|discriminate].
  destruct (negb (is_none x)); [|discriminate].
  apply calculate_severity_v2_not_critical.
Qed.

Lemma X9_witness :
  extract_severity_from_cvss
    (JObj [ ("cvssV2_0",
             JObj [ ("baseScore", score_9_8);
                    ("baseSeverity", JStr "CRITICAL") ]) ])
  = extract_severity_from_cvss
      (JObj [ ("cvssV2_0", JObj [ ("baseScore", score_9_8) ]) ]).
Proof.
  apply (X9_v2_blocks_use_score_only
           [ ("cvssV2_0",
              JObj [ ("baseScore", score_9_8);
                     ("baseSeverity", JStr "CRITICAL") ]) ]
           [ ("cvssV2_0", JObj [ ("baseScore", score_9_8) ]) ]
           _ _ eq_refl eq_refl eq_refl).
Defined.

Lemma str_eq_not_in (k : string) (l : list string) (x : json) :
  ~ In x (map JStr l) -> In k l -> str_eq k x = false.
Proof.
  intros N I. destruct x; simpl; auto.
  apply String.eqb_neq. intros ->. apply N. now apply in_map.
Qed.

(** X10.  In a v3 block, a [baseSeverity] that is truthy and is not one
    of CRITICAL, HIGH, MEDIUM, LOW (a label in lower case, say) resolves
    to N/A: the base score is not used as a fallback then. *)
Theorem X10_unknown_label_is_undetermined (block cvss : dict)
  (version : string) (label : json) :
  version_of block = Some (version, JObj cvss) ->
  version <> "cvssV2_0" ->
  lookup "baseSeverity" cvss = Some label ->
  truthy label = true ->
  ~ In label (map JStr known_labels) ->
  extract_severity_from_cvss (JObj block) = Ok "N/A".
Proof.
  intros V N L T K.
  assert (S : severity_v3 (JObj cvss) = Ok "N/A").
  { unfold severity_v3, get. rewrite L. cbn [rbind]. rewrite T.
    rewrite !(str_eq_not_in _ known_labels label K) by (simpl; tauto).
    reflexivity. }
  version_cases V; decode; try exact S. congruence.
Qed.

Lemma X10_witness :
  extract_severity_from_cvss
    (JObj [ ("cvssV3_1",
             JObj [ ("baseSeverity", JStr "high");
                    ("baseScore", score_9_8) ]) ])
  = Ok "N/A".
Proof.
  apply (X10_unknown_label_is_undetermined
           [ ("cvssV3_1",
              JObj [ ("baseSeverity", JStr "high");
                     ("baseScore", score_9_8) ]) ]
           [ ("baseSeverity", JStr "high"); ("baseScore", score_9_8) ]
           "cvssV3_1" (JStr "high") eq_refl).
  - discriminate.
  - reflexivity.
  - reflexivity.
  - simpl. intuition discriminate.
Defined.

(** *** Thresholds *)

Lemma ge_json_of_number (n : number) (c : Q) :
  ge (json_of_number n) c = Ok (ge_number n c).
Proof. destruct n as [z|[| | |q]]; reflexivity. Qed.

Lemma ge_number_mono (n n' : number) (c : Q) :
  float_le (exact n) (exact n') ->
  ge_number n c = true -> ge_number n' c = true.
Proof.
  destruct n as [z|[| | |q]], n' as [z'|[| | |q']]; simpl;
    try tauto; try discriminate; auto;
    intros L H; apply Qle_bool_iff; apply Qle_bool_iff in H;
    eapply Qle_trans; eauto.
Qed.

Lemma ge_number_thresholds (n : number) (c d : Q) :
  (c <= d)%Q -> ge_number n d = true -> ge_number n c = true.
Proof.
  destruct n as [z|[| | |q]]; simpl; auto;
    intros L H; apply Qle_bool_iff; apply Qle_bool_iff in H;
    eapply Qle_trans; eauto.
Qed.

Lemma calculate_severity_of_number (n : number) (version : string) :
  calculate_severity_from_score (json_of_number n) version
  = Ok (if version =? "v3" then
          if ge_number n 9 then "Critical"
          else if ge_number n 7 then "High"
          else if ge_number n 4 then "Medium"
          else if ge_number n lit_0_1 then "Low" else "N/A"
        else
          if ge_number n 7 then "High"
          else if ge_number n 4 then "Medium"
          else if ge_number n lit_0_1 then "Low" else "N/A").
Proof.
  unfold calculate_severity_from_score. rewrite !ge_json_of_number.
  cbn [rbind].
  destruct (version =? "v3"), (ge_number n 9), (ge_number n 7),
    (ge_number n 4), (ge_number n lit_0_1); reflexivity.
Qed.

(** X11.  The severity of a numeric score grows with the score: of two
    scores, the greater never gets the lower label, under either
    version. *)
Theorem X11_severity_is_monotone (n n' : number) (version s s' : string) :
  float_le (exact n) (exact n') ->
  calculate_severity_from_score (json_of_number n) version = Ok s ->
  calculate_severity_from_score (json_of_number n') version = Ok s' ->
  rank s <= rank s'.
Proof.
  intros L. rewrite !calculate_severity_of_number. intros E E'.
  inversion E; inversion E'; clear E E'.
  pose proof (ge_number_mono n n' 9 L) as M9.
  pose proof (ge_number_mono n n' 7 L) as M7.
  pose proof (ge_number_mono n n' 4 L) as M4.
  pose proof (ge_number_mono n n' lit_0_1 L) as M1.
  destruct (version =? "v3");
    destruct (ge_number n 9), (ge_number n 7), (ge_number n 4),
      (ge_number n lit_0_1);
    try rewrite (M9 eq_refl); try rewrite (M7 eq_refl);
    try rewrite (M4 eq_refl); try rewrite (M1 eq_refl);
    destruct (ge_number n' 9), (ge_number n' 7), (ge_number n' 4),
      (ge_number n' lit_0_1);
    unfold rank; simpl; lia.
Qed.

Lemma X11_witness : rank "Medium" <= rank "Critical".
Proof.
  apply (X11_severity_is_monotone (NInt 5) (NFloat (FFin (19 # 2))) "v3").
  - simpl. discriminate.
  - reflexivity.
  - reflexivity.
Defined.

Lemma ge_numeric (x : json) (c : Q) :
  numeric x = true -> exists b, ge x c = Ok b.
Proof.
  destruct x as [| | |[| | |]| | |]; try discriminate; simpl; eauto.
Qed.

Lemma calculate_severity_not_numeric (x : json) (version : string) :
  numeric x = false ->
  calculate_severity_from_score x version = Raise TypeError.
Proof.
  unfold calculate_severity_from_score.
  destruct x; try discriminate; simpl;
    destruct (version =? "v3"); reflexivity.
Qed.

(** X12.  Any version other than ['v3'] is scored as v2; v2 never gives
    Critical; and the two versions agree on every score that v3 does not
    rate Critical, also in raising. *)
Theorem X12_versions_differ_at_critical_only (base_score : json)
  (version : string) :
  (version <> "v3" ->
   calculate_severity_from_score base_score version
   = calculate_severity_from_score base_score "v2"
   /\ calculate_severity_from_score base_score version <> Ok "Critical")
  /\ (calculate_severity_from_score base_score "v3" <> Ok "Critical" ->
      calculate_severity_from_score base_score "v3"
      = calculate_severity_from_score base_score "v2").
Proof.
  split.
  - intros N.
    assert (E : calculate_severity_from_score base_score version
                = calculate_severity_from_score base_score "v2").
    { unfold calculate_severity_from_score.
      apply String.eqb_neq in N. now rewrite N. }
    split; [exact E|]. rewrite E.
    apply calculate_severity_v2_not_critical.
  - destruct (numeric base_score) eqn:N.
    + unfold calculate_severity_from_score. simpl String.eqb. cbv iota.
      destruct (ge_numeric base_score 9 N) as [[|] ->]; cbn [rbind]; auto.
      intros H. now elim H.
    + now rewrite !calculate_severity_not_numeric.
Qed.

Lemma X12_witness :
  calculate_severity_from_score score_9_8 "v2.0"
  = calculate_severity_from_score score_9_8 "v2".
Proof.
  apply (proj1 (X12_versions_differ_at_critical_only score_9_8 "v2.0")).
  discriminate.
Defined.

(** X13.  [calculate_severity_from_score] returns a label on every
    [bool], [int] and [float] (NaN and the infinities included) and
    raises [TypeError] on every other value: [None], a string, a list,
    an object. *)
Theorem X13_score_must_be_numeric (base_score : json) (version : string) :
  (numeric base_score = true ->
   exists s, calculate_severity_from_score base_score version = Ok s
             /\ In s severity_labels)
  /\ (numeric base_score = false ->
      calculate_severity_from_score base_score version = Raise TypeError).
Proof.
  split; intros N.
  - pose proof (fun c => ge_numeric base_score c N) as G.
    assert (E : exists s,
               calculate_severity_from_score base_score version = Ok s).
    { unfold calculate_severity_from_score.
      destruct (G 9%Q) as [b9 ->], (G 7%Q) as [b7 ->], (G 4%Q) as [b4 ->],
        (G lit_0_1) as [b1 ->]. cbn [rbind].
      destruct (version =? "v3"), b9, b7, b4, b1; eauto. }
    destruct E as [s E]. exists s. split; [exact E|].
    eapply calculate_severity_labels; eauto.
  - now apply calculate_severity_not_numeric.
Qed.

Lemma X13_witness :
  calculate_severity_from_score (JStr "9.8") "v3" = Raise TypeError.
Proof.
  apply (proj2 (X13_score_must_be_numeric (JStr "9.8") "v3")). reflexivity.
Defined.

(** ** Aggregator: further properties *)

Open Scope stmt_scope.

Lemma preserves_bind_lift (I : env -> Prop) {A B} (r : result A)
  (k : A -> M B) :
  (forall a, r = Ok a -> preserves I (k a)) -> preserves I (bind (lift r) k).
Proof.
  intros H e He. unfold bind, lift. destruct r as [a|x]; simpl; auto.
  now apply (H a).
Qed.

Lemma preserves_for_In (I : env -> Prop) {A} (l : list A)
  (body : A -> M unit) :
  (forall x, In x l -> preserves I (body x)) -> preserves I (for_ l body).
Proof.
  induction l as [|x r IH]; intros H; simpl.
  - apply preserves_ret.
  - apply preserves_bind; [apply H; now left|].
    intros _. apply IH. intros y Hy. apply H. now right.
Qed.

Lemma post_bind (I : env -> Prop) {A B} (Q : result B * env -> Prop)
  (m : M A) (k : A -> M B) :
  preserves I m ->
  (forall a, post I Q (k a)) ->
  (forall x e, I e -> Q (Raise x, e)) ->
  post I Q (bind m k).
Proof.
  intros Hm Hk Hx e He. unfold bind. specialize (Hm e He).
  destruct (m e) as [[a|x] e1]; simpl in Hm; auto. now apply Hk.
Qed.

(** *** Totals *)

Ltac plain_leaf :=
  first
    [ apply preserves_modify; intros ? ?; assumption
    | apply preserves_count_in; intros; assumption
    | apply preserves_count_in_v2; intros; assumption ].

Lemma totals_count_blocks normalize (e0 : env) (metrics_list : json) :
  preserves (same_totals e0) (count_blocks normalize metrics_list).
Proof. unfold count_blocks, process_block. preserve plain_leaf. Qed.

Lemma totals_cna_tier normalize (e0 : env) (data : json) :
  preserves (same_totals e0) (cna_tier normalize data).
Proof.
  unfold cna_tier.
  preserve ltac:(first [plain_leaf | apply totals_count_blocks]).
Qed.

Lemma totals_adp_tier normalize (e0 : env) (data : json) :
  preserves (same_totals e0) (adp_tier normalize data).
Proof.
  unfold adp_tier, adp_section.
  preserve ltac:(first [plain_leaf | apply totals_count_blocks]).
Qed.

Lemma totals_legacy_tier (e0 : env) (data : json) :
  preserves (same_totals e0) (legacy_tier data).
Proof. unfold legacy_tier. preserve plain_leaf. Qed.

Lemma count_file_counted (e0 : env) :
  post (same_totals e0) (file_counted e0) count_file.
Proof.
  intros e (T & P & W & X).
  unfold count_file, bind, gets, modify, ret. simpl.
  destruct (has_metrics e); simpl; rewrite ?T, ?P, ?W, ?X; auto.
Qed.

Lemma raise_counted (e0 : env) (x : exn) (e : env) :
  same_totals e0 e -> file_counted e0 (Raise x, e).
Proof. intros (T & P & W & X). simpl. auto. Qed.

Lemma try_body_counted normalize (f : file) (e0 : env) :
  file_counted e0 (try_body normalize f e0).
Proof.
  assert (P : post (same_totals e0) (file_counted e0)
                (try_body normalize f)).
  { unfold try_body.
    apply post_bind; [apply preserves_lift | | apply raise_counted].
    intros data.
    apply post_bind; [plain_leaf | | apply raise_counted]. intros _.
    apply post_bind; [plain_leaf | | apply raise_counted]. intros _.
    apply post_bind; [apply totals_cna_tier | | apply raise_counted].
    intros _.
    apply post_bind; [apply totals_adp_tier | | apply raise_counted].
    intros _.
    apply post_bind; [apply totals_legacy_tier | | apply raise_counted].
    intros _. apply count_file_counted. }
  apply P. repeat split.
Qed.

Lemma process_file_totals normalize (e : env) (f : file) :
  let e' := process_file normalize e f in
  total_files e' = total_files e + 1
  /\ ((errors e' = errors e
       /\ files_processed e' = files_processed e + 1
       /\ files_with_metrics e <= files_with_metrics e' <= files_with_metrics e + 1)
      \/ (exists x, errors e' = (errors e ++ [x])%list
          /\ files_processed e' = files_processed e
          /\ files_with_metrics e' = files_with_metrics e)).
Proof.
  cbv zeta. unfold process_file. cbv zeta.
  pose proof (try_body_counted normalize f
                (set_total_files (total_files e + 1) e)) as C.
  destruct (try_body normalize f _) as [[u|x] e1]; simpl in C;
    destruct C as (T & X & P & W).
  - split; [exact T|]. left. split; [exact X|]. split; [exact P|].
    destruct W as [W|W]; rewrite W; lia.
  - split; [exact T|]. right. exists x. simpl. rewrite X. auto.
Qed.

(** X15.  Each file adds one to [total_files].  A file processed
    without error adds one to [files_processed] and at most one to
    [files_with_metrics], however many score blocks it holds; a file
    whose processing raises adds one error and leaves both counts as
    they were. *)
Theorem X15_one_file_one_count (normalize : option (json -> json))
  (e : env) (f : file) :
  let e' := process_file normalize e f in
  total_files e' = total_files e + 1
  /\ ((errors e' = errors e
       /\ files_processed e' = files_processed e + 1
       /\ files_with_metrics e <= files_with_metrics e' <= files_with_metrics e + 1)
      \/ (exists x, errors e' = (errors e ++ [x])%list
          /\ files_processed e' = files_processed e
          /\ files_with_metrics e' = files_with_metrics e)).
Proof. exact (process_file_totals normalize e f). Qed.

Lemma fold_totals normalize (files : list file) (e : env) :
  let e' := fold_left (process_file normalize) files e in
  total_files e' = total_files e + List.length files
  /\ (files_processed e + List.length (errors e) = total_files e ->
      files_processed e' + List.length (errors e') = total_files e')
  /\ (files_with_metrics e <= files_processed e ->
      files_with_metrics e' <= files_processed e').
Proof.
  cbv zeta. revert e. induction files as [|f r IH]; intros e; simpl.
  - repeat split; auto.
  - destruct (IH (process_file normalize e f)) as (T & A & W).
    destruct (process_file_totals normalize e f) as (T1 & H).
    cbv zeta in *.
    split; [rewrite T, T1; lia|]. split; intros H0.
    + apply A. destruct H as [(X & P & _)|(x & X & P & _)];
        rewrite X, P, T1, ?length_app; simpl; lia.
    + apply W. destruct H as [(X & P & M)|(x & X & P & M)]; lia.
Qed.

Lemma merge_v2_totals (e : env) :
  total_files (merge_v2 e) = total_files e
  /\ files_processed (merge_v2 e) = files_processed e
  /\ files_with_metrics (merge_v2 e) = files_with_metrics e
  /\ errors (merge_v2 e) = errors e.
Proof.
  unfold merge_v2.
  destruct (lookup "Authentication" (frequency_counter_v2 e)) as [[|p c]|];
    repeat split.
Qed.

(** X14.  After any batch, [total_files] is the number of files,
    every file is either counted in [files_processed] or reported as an
    error, and [files_with_metrics] is at most [files_processed]. *)
Theorem X14_batch_accounting (normalize : option (json -> json))
  (files : list file) :
  let e := process_json_files normalize files in
  total_files e = List.length files
  /\ files_processed e + List.length (errors e) = total_files e
  /\ files_with_metrics e <= files_processed e.
Proof.
  cbv zeta. unfold process_json_files.
  destruct (merge_v2_totals (fold_left (process_file normalize) files initial))
    as (-> & -> & -> & ->).
  destruct (fold_totals normalize files initial) as (T & A & W).
  cbv zeta in *. split; [exact T|]. split; [now apply A | now apply W].
Qed.

(** *** Severity levels *)

(** As [preserve], keeping the equation of a lifted result. *)
Ltac preserve_eq leaf :=
  repeat first
    [ solve [leaf]
    | match goal with
      | |- preserves _ (ret _) => apply preserves_ret
      | |- preserves _ (lift _) => apply preserves_lift
      | |- preserves _ (gets _) => apply preserves_gets
      | |- preserves _ (for_ _ _) => apply preserves_for_; intros
      | |- preserves _ (bind (lift _) _) =>
          apply preserves_bind_lift; intros ? ?
      | |- preserves _ (bind _ _) => apply preserves_bind; [ | intros ]
      | |- preserves _ (if ?b then _ else _) => destruct b
      | |- preserves _ (match ?x with _ => _ end) => destruct x
      | |- preserves _ (let (_, _) := ?x in _) => destruct x
      end ].


Lemma labels_count_in_other (name : string) (value : json) :
  name <> "SeverityLevel" ->
  preserves severity_levels_are_labels (count_in name value).
Proof.
  intros N. apply preserves_count_in. intros e c k He L Hk k'.
  unfold counter_of. simpl frequency_counter.
  rewrite lookup_dict_set_other by congruence. apply He.
Qed.

Lemma labels_count_in_label (s : string) :
  In s severity_labels ->
  preserves severity_levels_are_labels (count_in "SeverityLevel" (JStr s)).
Proof.
  intros Hs. apply preserves_count_in. intros e c k He L Hk k'.
  unfold counter_of. simpl frequency_counter.
  rewrite lookup_dict_set_same. intros I'.
  apply incr_counted in I'. destruct I' as [->|I'].
  - inversion Hk. now exists s.
  - apply He. unfold counter_of. now rewrite L.
Qed.

Lemma metrics_key_not_severity_level (cvss_data : json) (m : dict)
  (key : string) (value : json) :
  extract_metrics cvss_data = Ok m -> In (key, value) m ->
  key <> "SeverityLevel".
Proof.
  intros E I.
  assert (K : In key (keys m)) by (apply (in_map fst) in I; exact I).
  destruct (extract_metrics_keys _ _ E) as [->|[H|H]].
  - destruct I.
  - rewrite H in K. simpl in K. intuition congruence.
  - rewrite H in K. simpl in K. intuition congruence.
Qed.

Ltac labels_leaf :=
  first
    [ plain_leaf
    | apply labels_count_in_other; discriminate
    | apply labels_count_in_label;
      first [ eapply extract_severity_labels; eassumption
            | eapply calculate_severity_labels; eassumption ] ].

Lemma labels_process_block normalize (cvss_data : json) :
  preserves severity_levels_are_labels (process_block normalize cvss_data).
Proof.
  unfold process_block.
  apply preserves_bind_lift. intros metrics Em.
  destruct metrics as [|p ms] eqn:M; [apply preserves_ret|].
  apply preserves_bind_lift. intros severity_level Es.
  apply preserves_bind; [preserve_eq labels_leaf|]. intros ?.
  apply preserves_bind; [apply preserves_lift|]. intros is20.
  apply preserves_bind; [preserve_eq labels_leaf|]. intros ?.
  apply preserves_for_In. intros [key value] Hin. cbv zeta.
  apply preserves_bind; [apply preserves_gets|]. intros fc.
  destruct (has_key key fc); [|apply preserves_ret].
  apply labels_count_in_other.
  eapply metrics_key_not_severity_level; eauto.
Qed.

Lemma labels_try_body normalize (f : file) :
  preserves severity_levels_are_labels (try_body normalize f).
Proof.
  unfold try_body, cna_tier, adp_tier, adp_section, legacy_tier, count_file,
    count_blocks.
  preserve_eq ltac:(first [labels_leaf | apply labels_process_block]).
Qed.

Lemma invariant_process_file (I : env -> Prop) normalize :
  (forall e x, I e -> I (set_total_files x e)) ->
  (forall e x, I e -> I (set_errors x e)) ->
  (forall f, preserves I (try_body normalize f)) ->
  forall e f, I e -> I (process_file normalize e f).
Proof.
  intros HT HE HB e f He. unfold process_file. cbv zeta.
  pose proof (HB f _ (HT e (total_files e + 1) He)) as H.
  destruct (try_body normalize f _) as [[u|x] e1]; simpl in H; auto.
Qed.

Lemma invariant_fold (I : env -> Prop) normalize :
  (forall e f, I e -> I (process_file normalize e f)) ->
  forall files e, I e -> I (fold_left (process_file normalize) files e).
Proof.
  intros H files. induction files as [|f r IH]; intros e He; simpl; auto.
Qed.

Lemma labels_merge_v2 (e : env) :
  severity_levels_are_labels e -> severity_levels_are_labels (merge_v2 e).
Proof.
  intros He. unfold merge_v2.
  destruct (lookup "Authentication" (frequency_counter_v2 e)) as [[|p c]|];
    auto.
  intros k. unfold counter_of. simpl frequency_counter.
  rewrite lookup_dict_set_other by discriminate. apply He.
Qed.

(** X16.  After any batch, under either script, every value counted
    in the SeverityLevel counter is one of Critical, High, Medium, Low,
    N/A. *)
Theorem X16_severity_levels_are_labels (normalize : option (json -> json))
  (files : list file) :
  severity_levels_are_labels (process_json_files normalize files).
Proof.
  unfold process_json_files. apply labels_merge_v2.
  apply invariant_fold.
  - apply invariant_process_file.
    + intros e x H. exact H.
    + intros e x H. exact H.
    + apply labels_try_body.
  - intros k [].
Qed.

(** *** Dimensions of the frequency table *)







(** *** Counts never decrease *)

Lemma count_incr_le (c : Counter) (k k' : key) :
  count c k' <= count (incr c k) k'.
Proof.
  induction c as [|[k0 n] r IH]; simpl; [lia|].
  destruct (key_eqb k k0); simpl; destruct (key_eqb k' k0); lia.
Qed.

Lemma grows_refl (e : env) : grows e e.
Proof. unfold grows. repeat split; auto. Qed.

Lemma grows_count_in (e0 : env) (name : string) (value : json) :
  preserves (grows e0) (count_in name value).
Proof.
  apply preserves_count_in. intros e c k (C & T) L Hk.
  split; [|exact T]. intros n k'. specialize (C n k').
  unfold counter_of in *. simpl frequency_counter.
  destruct (String.eqb_spec n name) as [->|N].
  - rewrite lookup_dict_set_same. rewrite L in C.
    pose proof (count_incr_le c k k'). lia.
  - now rewrite lookup_dict_set_other.
Qed.

Lemma grows_step (e0 : env) {A} (f : env -> nat) (set : nat -> env -> env)
  (k : nat -> M A) :
  (forall e n, grows e0 e -> f e <= n -> grows e0 (set n e)) ->
  (forall n, preserves (grows e0) (k n)) ->
  preserves (grows e0)
    (bind (gets f) (fun n => bind (modify (set (n + 1))) (fun _ => k n))).
Proof.
  intros Hs Hk e He. unfold bind, gets, modify. simpl.
  apply Hk. apply Hs; [assumption | lia].
Qed.

Lemma grows_last (e0 : env) (f : env -> nat) (set : nat -> env -> env) :
  (forall e n, grows e0 e -> f e <= n -> grows e0 (set n e)) ->
  preserves (grows e0) (bind (gets f) (fun n => modify (set (n + 1)))).
Proof.
  intros Hs e He. unfold bind, gets, modify. simpl.
  apply Hs; [assumption | lia].
Qed.

Ltac grows_set :=
  let e := fresh "e" in
  let n := fresh "n" in
  intros e n (C & T & P & W & V2 & V3) ?;
  unfold grows; simpl; repeat split; auto; lia.

Ltac grows_leaf :=
  first
    [ plain_leaf
    | apply grows_count_in
    | apply grows_last; grows_set ].

Ltac grows_steps leaf :=
  repeat first
    [ solve [leaf]
    | match goal with
      | |- preserves _ (bind (gets cvss_v2_files) _) =>
          apply grows_step; [grows_set | intros ?]
      | |- preserves _ (bind (gets cvss_v3_files) _) =>
          apply grows_step; [grows_set | intros ?]
      | |- preserves _ (bind (gets files_with_metrics) _) =>
          apply grows_step; [grows_set | intros ?]
      | |- preserves _ (ret _) => apply preserves_ret
      | |- preserves _ (lift _) => apply preserves_lift
      | |- preserves _ (gets _) => apply preserves_gets
      | |- preserves _ (for_ _ _) => apply preserves_for_; intros
      | |- preserves _ (bind _ _) => apply preserves_bind; [ | intros ]
      | |- preserves _ (if ?b then _ else _) => destruct b
      | |- preserves _ (match ?x with _ => _ end) => destruct x
      | |- preserves _ (let (_, _) := ?x in _) => destruct x
      end ].

Lemma grows_process_block (e0 : env) normalize (cvss_data : json) :
  preserves (grows e0) (process_block normalize cvss_data).
Proof. unfold process_block. grows_steps grows_leaf. Qed.

Lemma grows_try_body (e0 : env) normalize (f : file) :
  preserves (grows e0) (try_body normalize f).
Proof.
  unfold try_body, cna_tier, adp_tier, adp_section, legacy_tier, count_file,
    count_blocks.
  grows_steps ltac:(first [grows_leaf | apply grows_process_block]).
Qed.

(** X18.  Processing a file never lowers a count: every count of every
    dimension of the frequency table, and each of the totals, is after
    the file at least what it was before, also when the file fails. *)
Theorem X18_counts_never_decrease (normalize : option (json -> json))
  (e : env) (f : file) :
  grows e (process_file normalize e f).
Proof.
  unfold process_file. cbv zeta.
  assert (G : grows e (set_total_files (total_files e + 1) e)).
  { unfold grows. simpl. repeat split; auto. lia. }
  apply (grows_try_body e normalize f) in G.
  destruct (try_body normalize f _) as [[u|x] e1]; exact G.
Qed.

(** *** Documents without score blocks, and legacy documents *)

Lemma no_containers_cna (d : dict) :
  lookup "containers" d = None ->
  cna_metrics_of (JObj d) = Ok (JArr [])
  /\ adp_list_of (JObj d) = Ok (JArr []).
Proof.
  intros L. unfold cna_metrics_of, adp_list_of, get. now rewrite L.
Qed.

Lemma tiers_no_containers normalize (d : dict) (e : env) :
  lookup "containers" d = None -> has_metrics e = false ->
  tiers normalize (JObj d) e = (legacy_tier (JObj d) ;; count_file) e.
Proof.
  intros L H. destruct (no_containers_cna d L) as [C A].
  unfold tiers.
  assert (R : cna_tier normalize (JObj d) e = (Ok tt, e)).
  { unfold cna_tier, bind, lift. now rewrite C. }
  rewrite (bind_ok _ _ _ _ _ R).
  assert (R' : adp_tier normalize (JObj d) e = (Ok tt, e)).
  { unfold adp_tier, bind, gets, lift. now rewrite H, A. }
  now rewrite (bind_ok _ _ _ _ _ R').
Qed.

(** X19.  A document that is an object with neither a [containers] nor
    an [impact] key is counted in [total_files] and in
    [files_processed], and in nothing else: no error, no file with
    metrics, no change to any counter. *)
Theorem X19_document_without_scores (normalize : option (json -> json))
  (e : env) (d : dict) :
  lookup "containers" d = None ->
  lookup "impact" d = None ->
  let e' := process_file normalize e (Loaded (JObj d)) in
  total_files e' = total_files e + 1
  /\ files_processed e' = files_processed e + 1
  /\ files_with_metrics e' = files_with_metrics e
  /\ errors e' = errors e
  /\ cvss_v2_files e' = cvss_v2_files e
  /\ cvss_v3_files e' = cvss_v3_files e
  /\ frequency_counter e' = frequency_counter e
  /\ frequency_counter_v2 e' = frequency_counter_v2 e.
Proof.
  intros C I. cbv zeta. unfold process_file. cbv zeta.
  rewrite try_body_loaded.
  rewrite (tiers_no_containers normalize d _ C) by reflexivity.
  unfold legacy_tier, bind, gets, lift, get. simpl has_metrics.
  cbv iota beta. simpl negb. cbv iota. rewrite I. simpl.
  repeat split; reflexivity.
Qed.

Lemma X19_witness :
  files_processed
    (process_file None initial (Loaded (JObj [ ("cveMetadata", JObj []) ])))
  = 1
  /\ files_with_metrics
       (process_file None initial
          (Loaded (JObj [ ("cveMetadata", JObj []) ])))
     = 0.
Proof.
  destruct (X19_document_without_scores None initial
              [ ("cveMetadata", JObj []) ] eq_refl eq_refl)
    as (_ & P & W & _).
  split; [exact P | exact W].
Defined.

Lemma legacy_cvss_v3_inv (data c3 : json) :
  legacy_cvss_v3 data = Ok c3 ->
  exists impact_data base_metric_v3,
    get data "impact" (JObj []) = Ok impact_data
    /\ is_dict impact_data = true
    /\ get impact_data "baseMetricV3" (JObj []) = Ok base_metric_v3
    /\ get base_metric_v3 "cvssV3" (JObj []) = Ok c3.
Proof.
  unfold legacy_cvss_v3. intros H.
  destruct (get data "impact" (JObj [])) as [i|] eqn:G1; [|discriminate].
  cbn [rbind] in H.
  destruct (get i "baseMetricV3" (JObj [])) as [b|] eqn:G2; [|discriminate].
  cbn [rbind] in H. exists i, b. repeat split; auto.
  destruct i; try discriminate. reflexivity.
Qed.

Lemma legacy_tier_v3 (data data' c3 : json) (e : env) :
  legacy_cvss_v3 data = Ok c3 -> legacy_cvss_v3 data' = Ok c3 ->
  truthy c3 = true ->
  legacy_tier data e = legacy_tier data' e.
Proof.
  intros H H' T.
  destruct (legacy_cvss_v3_inv _ _ H) as (i & b & G1 & D & G2 & G3).
  destruct (legacy_cvss_v3_inv _ _ H') as (i' & b' & G1' & D' & G2' & G3').
  unfold legacy_tier, bind, gets, lift.
  destruct (negb (has_metrics e)); [|reflexivity].
  rewrite G1, G1', D, D', G2, G2', G3, G3', T. reflexivity.
Qed.

(** X20.  In a legacy document (no [containers] key) whose
    [impact.baseMetricV3.cvssV3] is a non-empty object, only that object
    is counted: what [impact.baseMetricV2] and the rest of the document
    hold changes nothing. *)
Theorem X20_legacy_v3_before_v2 (normalize : option (json -> json))
  (e : env) (d d' : dict) (cvss_v3 : json) :
  lookup "containers" d = None ->
  lookup "containers" d' = None ->
  legacy_cvss_v3 (JObj d) = Ok cvss_v3 ->
  legacy_cvss_v3 (JObj d') = Ok cvss_v3 ->
  truthy cvss_v3 = true ->
  process_file normalize e (Loaded (JObj d))
  = process_file normalize e (Loaded (JObj d')).
Proof.
  intros C C' H H' T. unfold process_file. cbv zeta.
  rewrite !try_body_loaded.
  rewrite (tiers_no_containers normalize d _ C) by reflexivity.
  rewrite (tiers_no_containers normalize d' _ C') by reflexivity.
  unfold bind.
  now rewrite (legacy_tier_v3 _ _ _ _ H H' T).
Qed.

Lemma X20_witness :
  process_file None initial
    (Loaded (JObj [ ("impact",
       JObj [ ("baseMetricV2", JObj [ ("cvssV2", block_v20) ]);
              ("baseMetricV3",
               JObj [ ("cvssV3", JObj [ ("baseScore", score_9_8) ]) ]) ]) ]))
  = process_file None initial (Loaded (legacy_v3_document score_9_8)).
Proof.
  apply (X20_legacy_v3_before_v2 None initial
           [ ("impact",
              JObj [ ("baseMetricV2", JObj [ ("cvssV2", block_v20) ]);
                     ("baseMetricV3",
                      JObj [ ("cvssV3",
                              JObj [ ("baseScore", score_9_8) ]) ]) ]) ]
           [ ("impact",
              JObj [ ("baseMetricV3",
                      JObj [ ("cvssV3",
                              JObj [ ("baseScore", score_9_8) ]) ]) ]) ]
           (JObj [ ("baseScore", score_9_8) ]));
    reflexivity.
Defined.

(** ** File listing *)

Lemma fold_left_collect {A B} (accept : A -> bool) (g : A -> B)
  (l : list A) (acc : list B) :
  fold_left (fun acc x => if accept x then (acc ++ [g x])%list else acc) l acc
  = (acc ++ map g (filter accept l))%list.
Proof.
  revert acc. induction l as [|x r IH]; intros acc; simpl.
  - now rewrite app_nil_r.
  - rewrite IH. destruct (accept x); simpl; auto.
    now rewrite <- app_assoc.
Qed.

Lemma find_json_files_from (w : walk) (acc : list string) :
  fold_left
    (fun json_files entry =>
       let '(root, _, files) := entry in
       fold_left
         (fun json_files file =>
            if endswith file ".json"
            then (json_files ++ [path_join root file])%list
            else json_files)
         files json_files)
    w acc
  = (acc ++ listed (fun file => endswith file ".json") w)%list.
Proof.
  revert acc. induction w as [|[[root dirs] files] r IH]; intros acc; simpl.
  - now rewrite app_nil_r.
  - rewrite (fold_left_collect (fun file => endswith file ".json")
               (path_join root)).
    rewrite IH. now rewrite <- app_assoc.
Qed.

Lemma find_json_files_listed (w : walk) :
  find_json_files w = listed (fun file => endswith file ".json") w.
Proof. unfold find_json_files. now rewrite find_json_files_from. Qed.

Lemma fold_left_count (accept : string -> bool) (g : string -> string)
  (l : list string) (n : nat) (acc : list string) :
  fold_left
    (fun acc file =>
       let '(json_count, json_files) := acc in
       if accept file
       then (json_count + 1, (json_files ++ [g file])%list)
       else acc)
    l (n, acc)
  = (n + List.length (filter accept l),
     (acc ++ map g (filter accept l))%list).
Proof.
  revert n acc. induction l as [|x r IH]; intros n acc; simpl.
  - now rewrite Nat.add_0_r, app_nil_r.
  - destruct (accept x); rewrite IH; simpl.
    + f_equal; [lia | now rewrite <- app_assoc].
    + reflexivity.
Qed.

Lemma count_json_files_from (w : walk) (n : nat) (acc : list string) :
  fold_left
    (fun acc entry =>
       let '(root, _, files) := entry in
       fold_left
         (fun acc file =>
            let '(json_count, json_files) := acc in
            if endswith (lower file) ".json"
            then (json_count + 1, (json_files ++ [path_join root file])%list)
            else acc)
         files acc)
    w (n, acc)
  = (n + List.length (listed is_json w), (acc ++ listed is_json w)%list).
Proof.
  revert n acc. induction w as [|[[root dirs] files] r IH]; intros n acc;
    simpl.
  - now rewrite Nat.add_0_r, app_nil_r.
  - rewrite (fold_left_count (fun file => endswith (lower file) ".json")
               (path_join root)).
    rewrite IH. rewrite length_app, length_map.
    f_equal; [fold (is_json); lia | now rewrite <- app_assoc].
Qed.

(** X21.  [count_json_files] returns a count and a list that agree:
    the count is the length of the list, and the list holds, in the
    order of the walk, the joined path of every file whose name ends in
    [.json] in any letter case. *)
Theorem X21_count_is_length_of_list (w : walk) :
  snd (count_json_files w) = listed is_json w
  /\ fst (count_json_files w) = List.length (snd (count_json_files w)).
Proof.
  unfold count_json_files. rewrite count_json_files_from. simpl. auto.
Qed.

Lemma endswith_cons (c : ascii) (r suffix : string) :
  endswith (String c r) suffix
  = (String c r =? suffix) || endswith r suffix.
Proof. reflexivity. Qed.

Lemma endswith_app (a b suffix : string) :
  endswith b suffix = true -> endswith (a ++ b) suffix = true.
Proof.
  intros H. induction a as [|c r IH]; auto.
  change (String c r ++ b) with (String c (r ++ b)).
  rewrite endswith_cons, IH. apply orb_true_r.
Qed.

Lemma endswith_lower (s suffix : string) :
  endswith s suffix = true -> endswith (lower s) (lower suffix) = true.
Proof.
  induction s as [|c r IH]; intros H.
  - destruct suffix; [reflexivity | discriminate].
  - rewrite endswith_cons in H.
    change (lower (String c r)) with (String (lower_char c) (lower r)).
    rewrite endswith_cons.
    apply orb_true_iff in H. destruct H as [H|H].
    + apply String.eqb_eq in H. subst suffix.
      change (lower (String c r)) with (String (lower_char c) (lower r)).
      now rewrite String.eqb_refl.
    + rewrite (IH H). apply orb_true_r.
Qed.

Lemma endswith_path_join (root file suffix : string) :
  endswith file suffix = true ->
  endswith (path_join root file) suffix = true.
Proof.
  intros H. unfold path_join.
  destruct (String.prefix "/" file); auto.
  destruct ((root =? "") || endswith root "/").
  - now apply endswith_app.
  - apply endswith_app. now apply (endswith_app "/").
Qed.

Lemma listed_In (accept : string -> bool) (w : walk) (p : string) :
  In p (listed accept w) <->
  exists root dirs files file,
    In (root, dirs, files) w /\ In file files /\ accept file = true
    /\ p = path_join root file.
Proof.
  unfold listed. rewrite in_flat_map. split.
  - intros ([[root dirs] files] & Hw & Hp).
    apply in_map_iff in Hp. destruct Hp as (file & <- & Hf).
    apply filter_In in Hf. destruct Hf as [Hf Ha].
    exists root, dirs, files, file. auto.
  - intros (root & dirs & files & file & Hw & Hf & Ha & ->).
    exists (root, dirs, files). split; auto.
    apply in_map. apply filter_In. auto.
Qed.

(** X22.  Every path [find_json_files] returns ends in [.json] and is
    also in the list [count_json_files] returns for the same walk, which
    accepts the extension in any letter case. *)
Theorem X22_found_files_are_counted (w : walk) (p : string) :
  In p (find_json_files w) ->
  endswith p ".json" = true /\ In p (snd (count_json_files w)).
Proof.
  rewrite find_json_files_listed.
  unfold count_json_files. rewrite count_json_files_from. simpl.
  intros H. apply listed_In in H.
  destruct H as (root & dirs & files & file & Hw & Hf & Ha & ->).
  split; [now apply endswith_path_join|].
  apply listed_In. exists root, dirs, files, file. repeat split; auto.
  unfold is_json. now apply (endswith_lower file ".json").
Qed.

Lemma X22_witness :
  endswith "data/2016/CVE-1.json" ".json" = true
  /\ In "data/2016/CVE-1.json"
        (snd (count_json_files
                [ ("data", ["2016"], ["README.md"]);
                  ("data/2016", [], ["CVE-1.json"; "CVE-2.JSON"]) ])).
Proof.
  apply (X22_found_files_are_counted
           [ ("data", ["2016"], ["README.md"]);
             ("data/2016", [], ["CVE-1.json"; "CVE-2.JSON"]) ]).
  simpl. left. reflexivity.
Defined.

(** *** [check_json_files] *)

Lemma member_set_add (f g : string) (s : list string) :
  member f (set_add g s) = (f =? g) || member f s.
Proof.
  unfold set_add. destruct (member g s) eqn:M.
  - destruct (String.eqb_spec f g) as [->|N]; simpl; auto.
  - unfold member. rewrite existsb_app. simpl.
    rewrite orb_false_r. apply orb_comm.
Qed.

Lemma member_json_set (f : string) (names acc : list string) :
  member f
    (fold_left (fun s g => if is_json g then set_add g s else s) names acc)
  = member f acc || (is_json f && member f names).
Proof.
  revert acc. induction names as [|g r IH]; intros acc; simpl.
  - now rewrite andb_false_r, orb_false_r.
  - rewrite IH. destruct (String.eqb_spec f g) as [->|N]; simpl.
    + destruct (is_json g); simpl.
      * rewrite member_set_add, String.eqb_refl. simpl.
        now rewrite orb_true_r.
      * reflexivity.
    + destruct (is_json g); auto.
      rewrite member_set_add. apply String.eqb_neq in N. now rewrite N.
Qed.

Lemma filter_filter {A} (p q : A -> bool) (l : list A) :
  filter q (filter p l) = filter (fun x => p x && q x) l.
Proof.
  induction l as [|x r IH]; simpl; auto.
  destruct (p x); simpl; [destruct (q x)|]; now rewrite IH.
Qed.

(** X23.  When the three folders exist and can be listed,
    [check_json_files] reports as missing exactly the names of the first
    folder that end in [.json] (in any letter case) and are in neither
    of the other two listings, in the order of the first listing, and
    reports that all are present when there is none. *)
Theorem X23_missing_files (folder_x folder_y folder_z : folder)
  (x_names y_names z_names : list string) :
  isdir folder_x = true -> isdir folder_y = true -> isdir folder_z = true ->
  listdir folder_x = Names x_names ->
  listdir folder_y = Names y_names ->
  listdir folder_z = Names z_names ->
  check_json_files folder_x folder_y folder_z
  = match absent_from_both x_names y_names z_names with
    | [] => AllPresent (List.length (filter is_json x_names))
    | missing =>
        MissingFiles (List.length (filter is_json x_names)) missing
    end.
Proof.
  intros Dx Dy Dz Lx Ly Lz. unfold check_json_files.
  rewrite Dx, Dy, Dz, Lx, Ly, Lz. simpl negb. cbv iota zeta.
  rewrite filter_filter.
  assert (E : filter
                (fun x => is_json x &&
                   (negb (member x
                      (fold_left
                         (fun s f => if is_json f then set_add f s else s)
                         y_names []))
                    && negb (member x
                      (fold_left
                         (fun s f => if is_json f then set_add f s else s)
                         z_names []))))
                x_names
              = absent_from_both x_names y_names z_names).
  { unfold absent_from_both. apply filter_ext. intros f.
    rewrite !member_json_set. simpl.
    destruct (is_json f); simpl; auto. }
  rewrite E. destruct (absent_from_both x_names y_names z_names); reflexivity.
Qed.

Lemma X23_witness :
  check_json_files
    (mkFolder "both" true (Names ["a.json"; "b.JSON"; "notes.txt"; "c.json"]))
    (mkFolder "fw" true (Names ["a.json"]))
    (mkFolder "sw" true (Names ["c.json"; "d.json"]))
  = MissingFiles 3 ["b.JSON"].
Proof.
  apply (X23_missing_files
           (mkFolder "both" true
              (Names ["a.json"; "b.JSON"; "notes.txt"; "c.json"]))
           (mkFolder "fw" true (Names ["a.json"]))
           (mkFolder "sw" true (Names ["c.json"; "d.json"]))
           ["a.json"; "b.JSON"; "notes.txt"; "c.json"]
           ["a.json"] ["c.json"; "d.json"]);
    reflexivity.
Defined.

(** ** Weakness Extractor *)

Lemma standard_cwe_str (s : string) :
  cwe_stats.standard_cwe (JStr s)
  = Ok (if String.prefix "CWE-" s then s else "CWE-" ++ s).
Proof. reflexivity. Qed.

Lemma prefix_cwe (s : string) : String.prefix "CWE-" ("CWE-" ++ s) = true.
Proof. destruct s; reflexivity. Qed.

Lemma standard_cwe_form (cwe_id : json) (id : string) :
  cwe_stats.standard_cwe cwe_id = Ok id -> standard_form id.
Proof.
  destruct cwe_id; try discriminate. rewrite standard_cwe_str.
  intros E. inversion E. unfold standard_form.
  destruct (String.prefix "CWE-" s) eqn:P; [exact P | apply prefix_cwe].
Qed.

(** X24.  The identifier counted for a [cweId] is in standard form: it
    starts with [CWE-].  Standardising is idempotent, an identifier
    written without the prefix is counted as the one written with it,
    and a truthy [cweId] that is not a string raises
    [AttributeError]. *)
Theorem X24_standard_cwe (cwe_id : json) :
  (forall id, cwe_stats.standard_cwe cwe_id = Ok id ->
     standard_form id /\ cwe_stats.standard_cwe (JStr id) = Ok id)
  /\ (forall s, cwe_id = JStr s -> String.prefix "CWE-" s = false ->
        cwe_stats.standard_cwe cwe_id
        = cwe_stats.standard_cwe (JStr ("CWE-" ++ s)))
  /\ ((forall s, cwe_id <> JStr s) ->
      cwe_stats.standard_cwe cwe_id = Raise AttributeError).
Proof.
  split; [|split].
  - intros id E. pose proof (standard_cwe_form _ _ E) as F.
    split; [exact F|]. rewrite standard_cwe_str.
    unfold standard_form in F. now rewrite F.
  - intros s -> P. rewrite !standard_cwe_str, P, prefix_cwe. reflexivity.
  - intros N. destruct cwe_id; try reflexivity. now elim (N s).
Qed.

Lemma X24_witness :
  cwe_stats.standard_cwe (JStr "79") = cwe_stats.standard_cwe (JStr "CWE-79").
Proof.
  apply (proj1 (proj2 (X24_standard_cwe (JStr "79"))) "79");
    reflexivity.
Defined.

Lemma member_In (f : string) (l : list string) :
  member f l = true <-> In f l.
Proof.
  unfold member. rewrite existsb_exists. split.
  - intros (x & H & E). apply String.eqb_eq in E. now subst.
  - intros H. exists f. split; [assumption | apply String.eqb_refl].
Qed.

Lemma set_add_NoDup (f : string) (l : list string) :
  NoDup l -> NoDup (set_add f l).
Proof.
  intros N. unfold set_add. destruct (member f l) eqn:M; auto.
  apply NoDup_app; auto.
  - repeat constructor. intros [].
  - intros x Hx [<-|[]]. apply member_In in Hx. congruence.
Qed.

Lemma set_add_In (f g : string) (l : list string) :
  In g (set_add f l) -> g = f \/ In g l.
Proof.
  unfold set_add. destruct (member f l); auto.
  intros H. apply in_app_or in H. destruct H as [H|[<-|[]]]; auto.
Qed.

Lemma add_cwe_id_standard (ids ids' : list string) (desc : json) :
  standard_set ids -> cwe_stats.add_cwe_id ids desc = Ok ids' ->
  standard_set ids'.
Proof.
  intros [N F]. unfold cwe_stats.add_cwe_id.
  destruct (get desc "cweId" JNull) as [c|]; [|discriminate]. cbn [rbind].
  destruct (truthy c); [|intros E; inversion E; subst; split; auto].
  destruct (cwe_stats.standard_cwe c) as [id|] eqn:S; [|discriminate].
  cbn [rbind]. intros E. inversion E; subst. split.
  - now apply set_add_NoDup.
  - intros g Hg. apply set_add_In in Hg. destruct Hg as [->|Hg]; auto.
    eapply standard_cwe_form; eauto.
Qed.

Lemma add_descriptions_standard (ids ids' : list string) (pt : json) :
  standard_set ids -> cwe_stats.add_descriptions ids pt = Ok ids' ->
  standard_set ids'.
Proof.
  intros S. unfold cwe_stats.add_descriptions.
  destruct (get pt "descriptions" (JArr [])) as [d|]; [|discriminate].
  cbn [rbind]. destruct (iter d) as [l|]; [|discriminate]. cbn [rbind].
  apply (for_each_invariant cwe_stats.add_cwe_id standard_set); auto.
  intros s x s' Hs E. eapply add_cwe_id_standard; eauto.
Qed.

Lemma add_problem_types_standard (ids ids' : list string) (c : json) :
  standard_set ids -> cwe_stats.add_problem_types ids c = Ok ids' ->
  standard_set ids'.
Proof.
  intros S. unfold cwe_stats.add_problem_types.
  destruct (get c "problemTypes" (JArr [])) as [d|]; [|discriminate].
  cbn [rbind]. destruct (iter d) as [l|]; [|discriminate]. cbn [rbind].
  apply (for_each_invariant cwe_stats.add_descriptions standard_set); auto.
  intros s x s' Hs E. eapply add_descriptions_standard; eauto.
Qed.

(** X25.  Whatever the document holds, [extract_cwe_ids_from_data],
    when it returns, returns identifiers without repetition, each in
    standard form. *)
Theorem X25_extracted_ids_are_standard (data : json) (ids : list string) :
  cwe_stats.extract_cwe_ids_from_data data = Ok ids ->
  NoDup ids /\ forall id, In id ids -> standard_form id.
Proof.
  unfold cwe_stats.extract_cwe_ids_from_data. cbv zeta. intros E.
  destruct (get data "containers" (JObj [])) as [c|]; [|discriminate].
  cbn [rbind] in E.
  destruct (get c "cna" (JObj [])) as [cna|]; [|discriminate].
  cbn [rbind] in E.
  assert (S0 : standard_set []) by (split; [constructor | intros ? []]).
  destruct (if truthy cna then cwe_stats.add_problem_types [] cna else Ok [])
    as [ids1|] eqn:E1; [|discriminate].
  assert (S1 : standard_set ids1).
  { destruct (truthy cna).
    - eapply add_problem_types_standard; eauto.
    - now inversion E1; subst. }
  cbn [rbind] in E.
  destruct (get c "adp" (JArr [])) as [a|]; [|discriminate].
  cbn [rbind] in E. destruct (iter a) as [l|]; [|discriminate].
  cbn [rbind] in E.
  apply (for_each_invariant cwe_stats.add_problem_types standard_set)
    with (l := l) (s := ids1); auto.
  intros s x s' Hs H. eapply add_problem_types_standard; eauto.
Qed.

Lemma X25_witness :
  cwe_stats.extract_cwe_ids_from_data document_two_cwe
  = Ok ["CWE-79"; "CWE-89"]
  /\ NoDup ["CWE-79"; "CWE-89"].
Proof.
  split; [reflexivity|].
  apply (X25_extracted_ids_are_standard document_two_cwe). reflexivity.
Defined.

(** *** [process_json_files_for_cwe] *)

Section CwePreserves.

Import cwe_stats.
Open Scope cwe_scope.

Variable I : state -> Prop.

Lemma cwe_preserves_ret {A} (a : A) : cwe_preserves I (ret a).
Proof. now intros s. Qed.

Lemma cwe_preserves_lift {A} (r : result A) : cwe_preserves I (lift r).
Proof. now intros s. Qed.

Lemma cwe_preserves_gets {A} (f : state -> A) : cwe_preserves I (gets f).
Proof. now intros s. Qed.

Lemma cwe_preserves_modify (f : state -> state) :
  (forall s, I s -> I (f s)) -> cwe_preserves I (modify f).
Proof. intros H s Hs. now apply H. Qed.

Lemma cwe_preserves_bind {A B} (m : C A) (k : A -> C B) :
  cwe_preserves I m -> (forall a, cwe_preserves I (k a)) ->
  cwe_preserves I (bind m k).
Proof.
  intros Hm Hk s Hs. unfold bind. specialize (Hm s Hs).
  destruct (m s) as [[a|x] s1]; simpl in *; auto. now apply Hk.
Qed.

Lemma cwe_preserves_for_ {A} (l : list A) (body : A -> C unit) :
  (forall x, cwe_preserves I (body x)) -> cwe_preserves I (for_ l body).
Proof.
  intros H. induction l as [|x r IH]; simpl.
  - apply cwe_preserves_ret.
  - apply cwe_preserves_bind; auto.
Qed.

Lemma cwe_post_bind {A B} (Q : result B * state -> Prop)
  (m : C A) (k : A -> C B) :
  cwe_preserves I m ->
  (forall a, cwe_post I Q (k a)) ->
  (forall x s, I s -> Q (Raise x, s)) ->
  cwe_post I Q (bind m k).
Proof.
  intros Hm Hk Hx s Hs. unfold bind. specialize (Hm s Hs).
  destruct (m s) as [[a|x] s1]; simpl in Hm; auto. now apply Hk.
Qed.

(** The loops over problem types and descriptions keep what
    [count_description] keeps. *)
Lemma cwe_preserves_problem_types (loc : container) (cont : json) :
  (forall desc, cwe_preserves I (count_description loc desc)) ->
  cwe_preserves I (count_problem_types loc cont).
Proof.
  intros H. unfold count_problem_types.
  apply cwe_preserves_bind; [apply cwe_preserves_lift|]. intros pts.
  apply cwe_preserves_bind; [apply cwe_preserves_lift|]. intros l.
  apply cwe_preserves_for_. intros pt.
  apply cwe_preserves_bind; [apply cwe_preserves_lift|]. intros ds.
  apply cwe_preserves_bind; [apply cwe_preserves_lift|]. intros l'.
  now apply cwe_preserves_for_.
Qed.

End CwePreserves.

Lemma standard_count_description (loc : cwe_stats.container) (desc : json) :
  cwe_preserves cwe_keys_standard (cwe_stats.count_description loc desc).
Proof.
  intros s Hs.
  unfold cwe_stats.count_description, cwe_stats.bind, cwe_stats.lift,
    cwe_stats.modify, cwe_stats.gets, cwe_stats.ret.
  destruct (get desc "cweId" JNull) as [c|]; [|exact Hs].
  destruct (truthy c); [|exact Hs].
  destruct (cwe_stats.standard_cwe c) as [id|] eqn:E; destruct loc; simpl;
    try exact Hs;
    intros k Hk; apply incr_counted in Hk; destruct Hk as [->|Hk];
    try (apply (Hs k Hk));
    exists id; (split; [reflexivity|]); eapply standard_cwe_form; eauto.
Qed.

Lemma standard_try_body (f : file) :
  cwe_preserves cwe_keys_standard (cwe_stats.try_body f).
Proof.
  unfold cwe_stats.try_body, cwe_stats.count_file.
  repeat first
    [ apply cwe_preserves_problem_types; apply standard_count_description
    | match goal with
      | |- cwe_preserves _ (cwe_stats.ret _) => apply cwe_preserves_ret
      | |- cwe_preserves _ (cwe_stats.lift _) => apply cwe_preserves_lift
      | |- cwe_preserves _ (cwe_stats.gets _) => apply cwe_preserves_gets
      | |- cwe_preserves _ (cwe_stats.modify _) =>
          apply cwe_preserves_modify; intros ? ?; assumption
      | |- cwe_preserves _ (cwe_stats.for_ _ _) =>
          apply cwe_preserves_for_; intros
      | |- cwe_preserves _ (cwe_stats.bind _ _) =>
          apply cwe_preserves_bind; [ | intros ]
      | |- cwe_preserves _ (if ?b then _ else _) => destruct b
      end ].
Qed.

Lemma cwe_invariant_fold (I : cwe_stats.state -> Prop) :
  (forall s f, I s -> I (cwe_stats.process_file s f)) ->
  forall files s, I s -> I (fold_left cwe_stats.process_file files s).
Proof.
  intros H files. induction files as [|f r IH]; intros s Hs; simpl; auto.
Qed.

(** X26.  After any batch, every identifier counted in [cwe_counter]
    is a string that starts with [CWE-]. *)
Theorem X26_counted_ids_are_standard (files : list file) :
  cwe_keys_standard (cwe_stats.process_json_files_for_cwe files).
Proof.
  unfold cwe_stats.process_json_files_for_cwe.
  apply cwe_invariant_fold; [|intros k []].
  intros s f Hs. unfold cwe_stats.process_file. cbv zeta.
  assert (H1 : cwe_keys_standard
                 (cwe_stats.set_total_files (cwe_stats.total_files s + 1) s))
    by exact Hs.
  apply (standard_try_body f) in H1.
  destruct (cwe_stats.try_body f _) as [[u|x] s1]; exact H1.
Qed.

(** *** Accounting *)

Lemma total_incr (c : Counter) (k : key) : total (incr c k) = total c + 1.
Proof.
  unfold total. induction c as [|[k0 n] r IH]; simpl; auto.
  destruct (key_eqb k k0); simpl; lia.
Qed.

Lemma in_file_count_description (s0 : cwe_stats.state)
  (loc : cwe_stats.container) (desc : json) :
  cwe_preserves (cwe_in_file s0) (cwe_stats.count_description loc desc).
Proof.
  intros s (L & W & P & T & X & F).
  unfold cwe_stats.count_description, cwe_stats.bind, cwe_stats.lift,
    cwe_stats.modify, cwe_stats.gets, cwe_stats.ret.
  destruct (get desc "cweId" JNull) as [c|]; [|repeat split; auto].
  destruct (truthy c); [|repeat split; auto].
  destruct (cwe_stats.standard_cwe c) as [id|]; destruct loc; simpl;
    repeat split; auto; now rewrite ?orb_true_r.
Qed.

Lemma count_file_cwe (s0 : cwe_stats.state) :
  cwe_post (cwe_in_file s0) (cwe_file_counted s0) cwe_stats.count_file.
Proof.
  intros s (L & W & P & T & X & F).
  unfold cwe_stats.count_file, cwe_stats.bind, cwe_stats.gets,
    cwe_stats.modify, cwe_stats.ret. simpl.
  destruct (cwe_stats.has_cwe s); simpl.
  - destruct (cwe_stats.found_in_cna s), (cwe_stats.found_in_adp s);
      try discriminate; simpl; rewrite T, X, P, W, total_incr, L;
      intuition auto.
  - rewrite T, X, P, W, L. intuition auto.
Qed.

Lemma raise_cwe (s0 : cwe_stats.state) (x : exn) (s : cwe_stats.state) :
  cwe_in_file s0 s -> cwe_file_counted s0 (Raise x, s).
Proof. intros (L & W & P & T & X & F). simpl. rewrite L. auto. Qed.

Lemma try_body_cwe (f : file) (s0 : cwe_stats.state) :
  cwe_file_counted s0 (cwe_stats.try_body f s0).
Proof.
  unfold cwe_stats.try_body.
  unfold cwe_stats.bind at 1. unfold cwe_stats.lift at 1.
  destruct (load f) as [data|x]; [|simpl; auto].
  unfold cwe_stats.bind at 1. unfold cwe_stats.modify at 1.
  unfold cwe_stats.bind at 1. unfold cwe_stats.modify at 1.
  unfold cwe_stats.bind at 1. unfold cwe_stats.modify at 1.
  cbv iota beta.
  match goal with
  | |- cwe_file_counted s0 (?m ?s) =>
      assert (P : cwe_post (cwe_in_file s0) (cwe_file_counted s0) m);
      [ | apply P; repeat split ]
  end.
  apply cwe_post_bind; [apply cwe_preserves_lift | | apply raise_cwe].
  intros containers.
  apply cwe_post_bind; [apply cwe_preserves_lift | | apply raise_cwe].
  intros cna_container.
  apply cwe_post_bind; [ | | apply raise_cwe].
  { destruct (truthy cna_container); [|apply cwe_preserves_ret].
    apply cwe_preserves_problem_types. apply in_file_count_description. }
  intros ?.
  apply cwe_post_bind; [apply cwe_preserves_lift | | apply raise_cwe].
  intros containers'.
  apply cwe_post_bind; [apply cwe_preserves_lift | | apply raise_cwe].
  intros adp_containers.
  apply cwe_post_bind; [apply cwe_preserves_lift | | apply raise_cwe].
  intros adps.
  apply cwe_post_bind; [ | | apply raise_cwe].
  { apply cwe_preserves_for_. intros section.
    apply cwe_preserves_problem_types. apply in_file_count_description. }
  intros ?. apply count_file_cwe.
Qed.

Lemma process_file_accounts (s : cwe_stats.state) (f : file) :
  cwe_accounts s ->
  cwe_accounts (cwe_stats.process_file s f)
  /\ cwe_stats.total_files (cwe_stats.process_file s f)
     = cwe_stats.total_files s + 1.
Proof.
  intros (A & W & L). unfold cwe_stats.process_file. cbv zeta.
  pose proof (try_body_cwe f
    (cwe_stats.set_total_files (cwe_stats.total_files s + 1) s)) as C.
  destruct (cwe_stats.try_body f _) as [[u|x] s1]; simpl in C;
    destruct C as (T & X & R); unfold cwe_accounts; simpl.
  - destruct R as (P & [[W1 L1]|[W1 L1]]); rewrite T, X, P, W1, L1;
      repeat split; lia.
  - destruct R as (P & W1 & L1). rewrite T, X, P, W1, L1, length_app.
    simpl. repeat split; lia.
Qed.

Lemma fold_accounts (files : list file) (s : cwe_stats.state) :
  cwe_accounts s ->
  cwe_accounts (fold_left cwe_stats.process_file files s)
  /\ cwe_stats.total_files (fold_left cwe_stats.process_file files s)
     = cwe_stats.total_files s + List.length files.
Proof.
  revert s. induction files as [|f r IH]; intros s A; simpl.
  - split; [assumption | lia].
  - destruct (process_file_accounts s f A) as [A1 T1].
    destruct (IH _ A1) as [A2 T2]. split; [assumption|]. lia.
Qed.

(** X27.  After any batch of [process_json_files_for_cwe],
    [total_files] is the number of files, every file is either counted
    in [files_processed] or reported as an error, [files_with_cwe] is at
    most [files_processed], and the counts of the location counter (Both,
    cna only, adp only) add up to [files_with_cwe]. *)
Theorem X27_cwe_accounting (files : list file) :
  let s := cwe_stats.process_json_files_for_cwe files in
  cwe_stats.total_files s = List.length files
  /\ cwe_stats.files_processed s + List.length (cwe_stats.errors s)
     = cwe_stats.total_files s
  /\ cwe_stats.files_with_cwe s <= cwe_stats.files_processed s
  /\ total (cwe_stats.location_counter s) = cwe_stats.files_with_cwe s.
Proof.
  cbv zeta. unfold cwe_stats.process_json_files_for_cwe.
  destruct (fold_accounts files cwe_stats.start) as [(A & W & L) T].
  { repeat split; simpl; lia. }
  split; [exact T|]. auto.
Qed.

(** *** Files with metrics *)

Open Scope stmt_scope.

Lemma bind_gets {A B} (f : env -> A) (k : A -> M B) (e : env) :
  bind (gets f) k e = k (f e) e.
Proof. reflexivity. Qed.

Lemma bind_lift {A B} (r : result A) (k : A -> M B) (e : env) :
  bind (lift r) k e
  = match r with Ok a => k a e | Raise x => (Raise x, e) end.
Proof. unfold bind, lift. now destruct r. Qed.

Lemma bind_modify {B} (f : env -> env) (k : unit -> M B) (e : env) :
  bind (modify f) k e = k tt (f e).
Proof. reflexivity. Qed.

Lemma found_after_set {A} (m : M A) (e : env) :
  preserves found m -> found (snd (m (set_has_metrics true e))).
Proof. intros P. apply P. reflexivity. Qed.

(** The legacy tier, from a state where nothing was found: it ends with
    [has_metrics] set when the [impact] object holds scores, and leaves
    the state as it is when it returns without having found any. *)
Lemma legacy_tier_found (data : json) (e : env) :
  has_metrics e = false ->
  (legacy_found data = true -> found (snd (legacy_tier data e)))
  /\ (legacy_found data = false ->
      forall e', legacy_tier data e = (Ok tt, e') -> e' = e).
Proof.
  intros H. unfold legacy_tier, legacy_found, legacy_cvss_v3.
  rewrite bind_gets, H. cbn [negb]. cbv beta iota.
  rewrite bind_lift.
  destruct (get data "impact" (JObj [])) as [impact_data|x]; cbn [rbind];
    [|split; [discriminate | intros _ e' E; discriminate]].
  destruct (is_dict impact_data); simpl andb;
    [|split; [discriminate | intros _ e' E; now inversion E]].
  rewrite bind_lift.
  destruct (get impact_data "baseMetricV3" (JObj [])) as [bm3|x];
    cbn [rbind]; [|split; [discriminate | intros _ e' E; discriminate]].
  rewrite bind_lift.
  destruct (get bm3 "cvssV3" (JObj [])) as [c3|x];
    [|split; [discriminate | intros _ e' E; discriminate]].
  destruct (truthy c3); simpl orb.
  - split; [intros _ | discriminate].
    rewrite bind_modify. apply found_after_set. preserve found_leaf.
  - rewrite bind_lift.
    destruct (get impact_data "baseMetricV2" (JObj [])) as [bm2|x];
      cbn [rbind]; [|split; [discriminate | intros _ e' E; discriminate]].
    rewrite bind_lift.
    destruct (get bm2 "cvssV2" (JObj [])) as [c2|x];
      [|split; [discriminate | intros _ e' E; discriminate]].
    destruct (truthy c2).
    + split; [intros _ | discriminate].
      rewrite bind_modify. apply found_after_set. preserve found_leaf.
    + split; [discriminate | intros _ e' E; now inversion E].
Qed.

Lemma adp_loop_nothing normalize (adps : list json) (e e' : env) :
  existsb contributes adps = false ->
  for_ adps (adp_section normalize) e = (Ok tt, e') -> e' = e.
Proof.
  revert e. induction adps as [|adp r IH]; intros e X R; simpl in *.
  - now inversion R.
  - apply orb_false_iff in X. destruct X as [X1 X2].
    assert (S : adp_section normalize adp e = (Ok tt, e)
                \/ exists x, adp_section normalize adp e = (Raise x, e)).
    { unfold adp_section, contributes in *. rewrite bind_lift.
      destruct (get adp "metrics" (JArr [])) as [m|x]; [|eauto].
      rewrite X1. now left. }
    destruct S as [S|[x S]].
    + rewrite (bind_ok _ _ _ _ _ S) in R. now apply IH.
    + rewrite (bind_raise _ _ _ _ _ S) in R. discriminate.
Qed.

Lemma count_file_adds (e : env) :
  count_file e
  = (Ok tt,
     set_files_processed (files_processed e + 1)
       (if has_metrics e
        then set_files_with_metrics (files_with_metrics e + 1) e
        else e)).
Proof.
  unfold count_file, bind, gets, modify, ret.
  destruct (has_metrics e); reflexivity.
Qed.

Lemma tiers_with_metrics normalize (data : json) (e e' : env) :
  has_metrics e = false ->
  tiers normalize data e = (Ok tt, e') ->
  files_with_metrics e'
  = files_with_metrics e + (if has_score_source data then 1 else 0).
Proof.
  intros H R. unfold has_score_source.
  destruct (winning_tier data) as [[[|] x]|] eqn:W.
  - apply winning_tier_primary in W. destruct W as [C T].
    rewrite (tiers_primary _ _ _ _ C T) in R.
    pose proof (found_count_blocks normalize x e) as F.
    pose proof (totals_count_blocks normalize e x e) as S.
    destruct (count_blocks normalize x e) as [[[]|y] e1] eqn:E.
    + rewrite (bind_ok _ _ _ _ _ E), count_file_adds in R.
      simpl in F. unfold found in F. rewrite F in R.
      inversion R; subst. simpl.
      destruct S as (_ & _ & S & _); [repeat split|]. simpl in S. lia.
    + rewrite (bind_raise _ _ _ _ _ E) in R. discriminate.
  - apply winning_tier_secondary in W.
    destruct W as (m & adps & C & T & A & It & Ex).
    rewrite (tiers_secondary normalize data m x adps e C T A It Ex H) in R.
    assert (S : preserves (same_totals e)
                  (for_ adps (adp_section normalize))).
    { apply preserves_for_. intros a. unfold adp_section.
      preserve ltac:(first [plain_leaf | apply totals_count_blocks]). }
    specialize (S e).
    destruct (for_ adps (adp_section normalize) e) as [[[]|y] e1] eqn:E.
    + assert (F : found e1) by (eapply found_adp_loop; eauto).
      rewrite (bind_ok _ _ _ _ _ E), count_file_adds in R.
      unfold found in F. rewrite F in R. inversion R; subst. simpl.
      destruct S as (_ & _ & S & _); [repeat split|]. simpl in S. lia.
    + rewrite (bind_raise _ _ _ _ _ E) in R. discriminate.
  - unfold tiers in R.
    assert (R1 : cna_tier normalize data e = (Ok tt, e)
                 /\ exists m, cna_metrics_of data = Ok m
                              /\ truthy m = false).
    { unfold winning_tier in W.
      destruct (cna_metrics_of data) as [m|y] eqn:C.
      - destruct (truthy m) eqn:T; [discriminate|].
        split; [|exists m; auto].
        unfold cna_tier. now rewrite bind_lift, C, T.
      - assert (X : cna_tier normalize data e = (Raise y, e)).
        { unfold cna_tier. now rewrite bind_lift, C. }
        rewrite (bind_raise _ _ _ _ _ X) in R. discriminate. }
    destruct R1 as (R1 & m & C & T).
    rewrite (bind_ok _ _ _ _ _ R1) in R.
    assert (R2 : adp_tier normalize data e = (Ok tt, e)).
    { unfold winning_tier in W. rewrite C, T in W.
      destruct (adp_tier normalize data e) as [[[]|y] e1] eqn:E;
        [|rewrite (bind_raise _ _ _ _ _ E) in R; discriminate].
      unfold adp_tier in E. rewrite bind_gets, H in E. cbn [negb] in E.
      cbv beta iota in E. rewrite bind_lift in E.
      destruct (adp_list_of data) as [a|y]; [|discriminate].
      rewrite bind_lift in E.
      destruct (iter a) as [adps|y]; [|discriminate].
      destruct (existsb contributes adps) eqn:X; [discriminate|].
      now rewrite (adp_loop_nothing _ _ _ _ X E). }
    rewrite (bind_ok _ _ _ _ _ R2) in R.
    destruct (legacy_tier_found data e H) as [LT LF].
    pose proof (totals_legacy_tier e data e) as S.
    destruct (legacy_tier data e) as [[[]|y] e1] eqn:E;
      [|rewrite (bind_raise _ _ _ _ _ E) in R; discriminate].
    rewrite (bind_ok _ _ _ _ _ E), count_file_adds in R.
    destruct (legacy_found data).
    + specialize (LT eq_refl). simpl in LT. unfold found in LT.
      rewrite LT in R. inversion R; subst. simpl.
      destruct S as (_ & _ & S & _); [repeat split|]. simpl in S. lia.
    + rewrite (LF eq_refl e1 eq_refl), H in R. inversion R; subst.
      simpl. lia.
Qed.

(** X28.  A document processed without error is counted in
    [files_with_metrics] exactly when it has a score source: a non-empty
    cna metrics list, or an adp section with a non-empty metrics list,
    or, failing both, a non-empty legacy [cvssV3] or [cvssV2] object.
    The count goes up by one then, however many blocks the source holds
    and whether or not any of them is of a known version. *)
Theorem X28_files_with_metrics (normalize : option (json -> json))
  (e : env) (data : json) :
  errors (process_file normalize e (Loaded data)) = errors e ->
  files_with_metrics (process_file normalize e (Loaded data))
  = files_with_metrics e + (if has_score_source data then 1 else 0).
Proof.
  unfold process_file. cbv zeta. rewrite try_body_loaded.
  set (e0 := set_cvss_version None
               (set_has_metrics false
                  (set_total_files (total_files e + 1) e))).
  pose proof (try_body_counted normalize (Loaded data)
                (set_total_files (total_files e + 1) e)) as C.
  rewrite try_body_loaded in C. fold e0 in C.
  destruct (tiers normalize data e0) as [[[]|x] e1] eqn:R.
  - intros _. now rewrite (tiers_with_metrics normalize data e0 e1 eq_refl R).
  - simpl in C. destruct C as (_ & X & _). simpl. rewrite X. simpl.
    intros E. exfalso.
    assert (L : List.length (errors e ++ [x]) = List.length (errors e))
      by now rewrite E.
    rewrite length_app in L. simpl in L. lia.
Qed.

Lemma X28_witness :
  files_with_metrics (process_file None initial (Loaded document_all_tiers))
  = 1.
Proof.
  apply (X28_files_with_metrics None initial document_all_tiers).
  reflexivity.
Defined.
